(** * poker_bot: hand history, player statistics and classification

    A shallow embedding of [poker/hand_history.py], [poker/player.py] and
    [poker/stats_calculator.py], and the properties of the statistics
    engine stated over it.

    Conventions of the embedding.
    - Python [float] values are exact rationals ([Q]); Python [int]
      counters that only count are [nat], the other integers are [Z].
      The interpreter rounds every float operation to binary64, so the
      statements about a computed float keep the operations of the
      code in the order of the code, compare, or equate two runs of
      the same computation: they do not reorder a division and a
      multiplication, which would change the last bits.
    - Strings are ASCII strings; [str.lower] maps the letters A-Z.
    - An action is the dictionary built by [HandRecord.add_action]; a
      key that is absent is [None], and the values are typed as the
      signature of [add_action] types them. *)

From Stdlib Require Import ZArith QArith Ascii String List Bool Lia.
From stdpp Require Import base option list strings gmap.

Local Open Scope string_scope.
Local Open Scope list_scope.

(** ** Python primitives used by the three modules *)

Definition lower_ascii (c : ascii) : ascii :=
  let n := nat_of_ascii c in
  if (65 <=? n)%nat && (n <=? 90)%nat then ascii_of_nat (n + 32) else c.

(** [str.lower()] *)
Fixpoint lower (s : string) : string :=
  match s with
  | EmptyString => EmptyString
  | String c rest => String (lower_ascii c) (lower rest)
  end.

(** [x in [s1, ..., sn]] for strings *)
Definition str_in (x : string) (l : list string) : bool :=
  existsb (String.eqb x) l.

(** [dict.get(key, default)] on an optional entry *)
Definition get_or {A} (entry : option A) (dflt : A) : A :=
  match entry with Some v => v | None => dflt end.

(** [dict.get(key) == s] *)
Definition get_eq (entry : option string) (s : string) : bool :=
  match entry with Some v => String.eqb v s | None => false end.

(** ** poker/hand_history.py: data *)

(** The dictionary appended by [HandRecord.add_action]. *)
Record Action := mkAction {
  a_player : option string;
  a_action_type : option string;
  a_amount : option Q;
  a_street : option string;
  a_timestamp : option string
}.

(** A naive [datetime.datetime]. *)
Record datetime := mkDatetime {
  year : N; month : N; day : N;
  hour : N; minute : N; second : N; microsecond : N
}.

Record HandRecord := mkHandRecord {
  hand_id : string;
  session_id : option string;
  timestamp : datetime;
  hero_cards : list string;
  board : list string;
  players : list string;
  hero_position : option string;
  small_blind : Q;
  big_blind : Q;
  actions : list Action;
  result_bb : Q;
  winner : option string;
  went_to_showdown : bool;
  ai_action : option string;
  ai_reasoning : option string;
  ai_confidence : option Q
}.

(** ** poker/player.py: data *)

Record PlayerStats := mkPlayerStats {
  hands : Z;
  vpip : Q;
  pfr : Q;
  three_bet : Q;
  fold_to_3bet : Q;
  af : Q;
  wtsd : Q;
  wssd : Q;
  cbet : Q;
  vpip_opportunities : Z;
  vpip_count : Z;
  pfr_opportunities : Z;
  pfr_count : Z;
  three_bet_opportunities : Z;
  three_bet_count : Z;
  fold_to_3bet_opportunities : Z;
  fold_to_3bet_count : Z;
  bets_raises : Z;
  calls : Z;
  showdown_opportunities : Z;
  showdown_count : Z;
  showdown_wins : Z;
  cbet_opportunities : Z;
  cbet_count : Z;
  stats_by_position : gmap string (gmap string Q)
}.

(** [PlayerStats()] *)
Definition PlayerStats_default : PlayerStats :=
  mkPlayerStats 0 0 0 0 0 0 0 0 0 0 0 0 0 0 0 0 0 0 0 0 0 0 0 0 ∅.

(** ** poker/stats_calculator.py *)

(** [(count / opportunities) * 100], and [0.0] without opportunities:
    the quotient first, then the product, as the code computes them
    (and rounds each in binary64). *)
Definition percent (count opportunities : nat) : Q :=
  if (opportunities =? 0)%nat then 0
  else (inject_Z (Z.of_nat count) / inject_Z (Z.of_nat opportunities)) * 100.

(** The loop over [hand.actions] of [_calculate_vpip]: [true] when the
    loop increments [voluntarily_put_in] and breaks. *)
Fixpoint vpip_scan (player : string) (acts : list Action) : bool :=
  match acts with
  | [] => false
  | action :: rest =>
      if get_eq (a_player action) player then
        let action_type := lower (get_or (a_action_type action) "") in
        let street := get_or (a_street action) "preflop" in
        if String.eqb street "preflop"
           && str_in action_type ["call"; "raise"; "bet"]
        then true
        else vpip_scan player rest
      else vpip_scan player rest
  end.

Definition _calculate_vpip (player : string) (hs : list HandRecord) : Q :=
  let '(opportunities, voluntarily_put_in) :=
    fold_left
      (fun '(opportunities, voluntarily_put_in) hand =>
         (S opportunities,
          if vpip_scan player (actions hand)
          then S voluntarily_put_in else voluntarily_put_in))
      hs (0%nat, 0%nat) in
  percent voluntarily_put_in opportunities.

(** The loop over [hand.actions] of [_calculate_pfr]. *)
Fixpoint pfr_scan (player : string) (acts : list Action) : bool :=
  match acts with
  | [] => false
  | action :: rest =>
      if get_eq (a_player action) player then
        let action_type := lower (get_or (a_action_type action) "") in
        let street := get_or (a_street action) "preflop" in
        if String.eqb street "preflop" && String.eqb action_type "raise"
        then true
        else pfr_scan player rest
      else pfr_scan player rest
  end.

Definition _calculate_pfr (player : string) (hs : list HandRecord) : Q :=
  let '(opportunities, pfr_count) :=
    fold_left
      (fun '(opportunities, pfr_count) hand =>
         (S opportunities,
          if pfr_scan player (actions hand) then S pfr_count else pfr_count))
      hs (0%nat, 0%nat) in
  percent pfr_count opportunities.

(** The loop over [hand.actions] of [_calculate_3bet], with its two
    flags and the two counters it increments; it returns the counters
    when the loop ends or breaks. *)
Fixpoint three_bet_scan (player : string) (acts : list Action)
    (raise_seen player_acted : bool) (opportunities three_bet_count : nat)
    : nat * nat :=
  match acts with
  | [] => (opportunities, three_bet_count)
  | action :: rest =>
      if negb (get_eq (a_street action) "preflop")
      then (opportunities, three_bet_count)
      else
        let is_player := get_eq (a_player action) player in
        let second_if (raise_seen : bool) :=
          if is_player then
            three_bet_scan player rest raise_seen true
              (if raise_seen && negb player_acted
               then S opportunities else opportunities)
              three_bet_count
          else
            three_bet_scan player rest raise_seen player_acted
              opportunities three_bet_count in
        if String.eqb (lower (get_or (a_action_type action) "")) "raise" then
          if negb is_player then second_if true
          else if raise_seen && negb player_acted
               then (S opportunities, S three_bet_count)
               else second_if raise_seen
        else second_if raise_seen
  end.

Definition _calculate_3bet (player : string) (hs : list HandRecord) : Q :=
  let '(opportunities, three_bet_count) :=
    fold_left
      (fun '(opportunities, three_bet_count) hand =>
         three_bet_scan player (actions hand) false false
           opportunities three_bet_count)
      hs (0%nat, 0%nat) in
  percent three_bet_count opportunities.

(** The loop over [hand.actions] of [_calculate_fold_to_3bet]. *)
Fixpoint fold_to_3bet_scan (player : string) (acts : list Action)
    (player_raised faced_3bet : bool) (opportunities fold_count : nat)
    : nat * nat :=
  match acts with
  | [] => (opportunities, fold_count)
  | action :: rest =>
      if negb (get_eq (a_street action) "preflop")
      then (opportunities, fold_count)
      else
        let action_type := lower (get_or (a_action_type action) "") in
        if get_eq (a_player action) player then
          if String.eqb action_type "raise" && negb player_raised then
            fold_to_3bet_scan player rest true faced_3bet
              opportunities fold_count
          else if faced_3bet then
            (S opportunities,
             if String.eqb action_type "fold"
             then S fold_count else fold_count)
          else
            fold_to_3bet_scan player rest player_raised faced_3bet
              opportunities fold_count
        else if player_raised && String.eqb action_type "raise" then
          fold_to_3bet_scan player rest player_raised true
            opportunities fold_count
        else
          fold_to_3bet_scan player rest player_raised faced_3bet
            opportunities fold_count
  end.

Definition _calculate_fold_to_3bet (player : string) (hs : list HandRecord)
    : Q :=
  let '(opportunities, fold_count) :=
    fold_left
      (fun '(opportunities, fold_count) hand =>
         fold_to_3bet_scan player (actions hand) false false
           opportunities fold_count)
      hs (0%nat, 0%nat) in
  percent fold_count opportunities.

(** The body of the inner loop of [_calculate_af]. *)
Definition af_step (player : string) (st : nat * nat) (action : Action)
    : nat * nat :=
  let '(bets_raises, calls) := st in
  if get_eq (a_player action) player then
    let action_type := lower (get_or (a_action_type action) "") in
    if str_in action_type ["bet"; "raise"] then (S bets_raises, calls)
    else if String.eqb action_type "call" then (bets_raises, S calls)
    else (bets_raises, calls)
  else (bets_raises, calls).

Definition af_counts (player : string) (hs : list HandRecord) : nat * nat :=
  fold_left (fun st hand => fold_left (af_step player) (actions hand) st)
    hs (0%nat, 0%nat).

Definition _calculate_af (player : string) (hs : list HandRecord) : Q :=
  let '(bets_raises, calls) := af_counts player hs in
  if (calls =? 0)%nat then
    (if (0 <? bets_raises)%nat then inject_Z (Z.of_nat bets_raises) else 0)
  else inject_Z (Z.of_nat bets_raises) / inject_Z (Z.of_nat calls).

(** The flop search of [_calculate_wtsd]. *)
Fixpoint saw_flop_scan (player : string) (acts : list Action) : bool :=
  match acts with
  | [] => false
  | action :: rest =>
      if get_eq (a_player action) player && get_eq (a_street action) "flop"
      then true
      else saw_flop_scan player rest
  end.

Definition _calculate_wtsd (player : string) (hs : list HandRecord) : Q :=
  let '(saw_flop, went) :=
    fold_left
      (fun '(saw_flop, went) hand =>
         if saw_flop_scan player (actions hand) then
           (S saw_flop,
            if went_to_showdown hand && str_in player (players hand)
            then S went else went)
         else (saw_flop, went))
      hs (0%nat, 0%nat) in
  percent went saw_flop.

Definition _calculate_wssd (player : string) (hs : list HandRecord) : Q :=
  let '(showdowns, wins) :=
    fold_left
      (fun '(showdowns, wins) hand =>
         if went_to_showdown hand && str_in player (players hand) then
           (S showdowns,
            if get_eq (winner hand) player then S wins else wins)
         else (showdowns, wins))
      hs (0%nat, 0%nat) in
  percent wins showdowns.

(** First loop of [_calculate_cbet]: was the player a preflop raiser. *)
Fixpoint aggressor_scan (player : string) (acts : list Action)
    (was_aggressor : bool) : bool :=
  match acts with
  | [] => was_aggressor
  | action :: rest =>
      if negb (get_eq (a_street action) "preflop") then was_aggressor
      else if get_eq (a_player action) player
              && String.eqb (lower (get_or (a_action_type action) "")) "raise"
      then aggressor_scan player rest true
      else aggressor_scan player rest was_aggressor
  end.

(** Second loop of [_calculate_cbet]: the player's first flop action. *)
Fixpoint cbet_flop_scan (player : string) (acts : list Action)
    (opportunities cbet_count : nat) : nat * nat :=
  match acts with
  | [] => (opportunities, cbet_count)
  | action :: rest =>
      if get_eq (a_street action) "flop" && get_eq (a_player action) player
      then
        (S opportunities,
         if str_in (lower (get_or (a_action_type action) ""))
              ["bet"; "raise"]
         then S cbet_count else cbet_count)
      else cbet_flop_scan player rest opportunities cbet_count
  end.

Definition _calculate_cbet (player : string) (hs : list HandRecord) : Q :=
  let '(opportunities, cbet_count) :=
    fold_left
      (fun '(opportunities, cbet_count) hand =>
         if negb (aggressor_scan player (actions hand) false)
         then (opportunities, cbet_count)
         else cbet_flop_scan player (actions hand) opportunities cbet_count)
      hs (0%nat, 0%nat) in
  percent cbet_count opportunities.

(** [player_hands = [h for h in hands if player_name in h.players]] *)
Definition player_hands (player_name : string) (hs : list HandRecord)
    : list HandRecord :=
  List.filter (fun h => str_in player_name (players h)) hs.

Definition set_hands (stats : PlayerStats) (n : Z) : PlayerStats :=
  mkPlayerStats n (vpip stats) (pfr stats) (three_bet stats)
    (fold_to_3bet stats) (af stats) (wtsd stats) (wssd stats) (cbet stats)
    (vpip_opportunities stats) (vpip_count stats) (pfr_opportunities stats)
    (pfr_count stats) (three_bet_opportunities stats) (three_bet_count stats)
    (fold_to_3bet_opportunities stats) (fold_to_3bet_count stats)
    (bets_raises stats) (calls stats) (showdown_opportunities stats)
    (showdown_count stats) (showdown_wins stats) (cbet_opportunities stats)
    (cbet_count stats) (stats_by_position stats).

Definition set_rates (stats : PlayerStats)
    (vpip' pfr' three_bet' fold_to_3bet' af' wtsd' wssd' cbet' : Q)
    : PlayerStats :=
  mkPlayerStats (hands stats) vpip' pfr' three_bet' fold_to_3bet' af' wtsd'
    wssd' cbet'
    (vpip_opportunities stats) (vpip_count stats) (pfr_opportunities stats)
    (pfr_count stats) (three_bet_opportunities stats) (three_bet_count stats)
    (fold_to_3bet_opportunities stats) (fold_to_3bet_count stats)
    (bets_raises stats) (calls stats) (showdown_opportunities stats)
    (showdown_count stats) (showdown_wins stats) (cbet_opportunities stats)
    (cbet_count stats) (stats_by_position stats).

Definition calculate_stats (player_name : string) (hs : list HandRecord)
    : PlayerStats :=
  let stats := PlayerStats_default in
  match hs with
  | [] => stats
  | _ =>
      let player_hands := player_hands player_name hs in
      let stats := set_hands stats (Z.of_nat (length player_hands)) in
      if (hands stats =? 0)%Z then stats
      else
        set_rates stats
          (_calculate_vpip player_name player_hands)
          (_calculate_pfr player_name player_hands)
          (_calculate_3bet player_name player_hands)
          (_calculate_fold_to_3bet player_name player_hands)
          (_calculate_af player_name player_hands)
          (_calculate_wtsd player_name player_hands)
          (_calculate_wssd player_name player_hands)
          (_calculate_cbet player_name player_hands)
  end.

(** ** poker/hand_history.py: the store *)

Record HandHistory := mkHandHistory {
  _hands : list HandRecord;
  _max_hands : Z;
  _current_hand : option HandRecord
}.

(** [HandHistory(max_hands)] *)
Definition HandHistory_init (max_hands : Z) : HandHistory :=
  mkHandHistory [] max_hands None.

(** The slice [l[start:]]: a negative [start] counts from the end and
    is clamped at the first element, a non-negative one is clamped at
    the length. *)
Definition slice_from {A} (l : list A) (start : Z) : list A :=
  let len := Z.of_nat (length l) in
  let i := if (start <? 0)%Z then Z.max (len + start) 0
           else Z.min start len in
  drop (Z.to_nat i) l.

(** [HandRecord(session_id=session_id)]; the identifier drawn from
    [uuid.uuid4] and the clock reading are inputs. *)
Definition HandRecord_new (fresh_id : string) (now : datetime)
    (session_id : option string) : HandRecord :=
  mkHandRecord fresh_id session_id now [] [] [] None 0 0 [] 0 None false
    None None None.

Definition set_result (h : HandRecord) (result_bb' : Q)
    (winner' : option string) : HandRecord :=
  mkHandRecord (hand_id h) (session_id h) (timestamp h) (hero_cards h)
    (board h) (players h) (hero_position h) (small_blind h) (big_blind h)
    (actions h) result_bb' winner' (went_to_showdown h) (ai_action h)
    (ai_reasoning h) (ai_confidence h).

(** [HandRecord.add_action]; the clock reading is an input. *)
Definition add_action (h : HandRecord) (player action_type : string)
    (amount : option Q) (street : string) (now_iso : string) : HandRecord :=
  mkHandRecord (hand_id h) (session_id h) (timestamp h) (hero_cards h)
    (board h) (players h) (hero_position h) (small_blind h) (big_blind h)
    (actions h ++
       [mkAction (Some player) (Some action_type) amount (Some street)
          (Some now_iso)])
    (result_bb h) (winner h) (went_to_showdown h) (ai_action h)
    (ai_reasoning h) (ai_confidence h).

Definition start_new_hand (self : HandHistory) (fresh_id : string)
    (now : datetime) (session_id : option string)
    : HandHistory * HandRecord :=
  let h := HandRecord_new fresh_id now session_id in
  (mkHandHistory (_hands self) (_max_hands self) (Some h), h).

(** The caller holds the record returned by [start_new_hand], which is
    the object in the open slot: what the caller writes to it (cards,
    players, actions) is a change of the open hand. *)
Definition write_current (self : HandHistory)
    (edit : HandRecord -> HandRecord) : HandHistory :=
  mkHandHistory (_hands self) (_max_hands self)
    (edit <$> _current_hand self).

Definition end_hand (self : HandHistory) (result_bb : Q)
    (winner : option string) : HandHistory :=
  match _current_hand self with
  | Some current =>
      let hs := _hands self ++ [set_result current result_bb winner] in
      let hs :=
        if (_max_hands self <? Z.of_nat (length hs))%Z
        then slice_from hs (- _max_hands self)
        else hs in
      mkHandHistory hs (_max_hands self) None
  | None => self
  end.

(** ** poker/player.py: the player and its classification *)

Record Player := mkPlayer {
  name : string;
  seat : Z;
  stack : Q;
  is_hero : bool;
  position : option string;
  stats : PlayerStats;
  last_updated : option datetime;
  notes : string
}.

Definition Qlt_bool (x y : Q) : bool := negb (Qle_bool y x).

Definition is_tight (self : Player) : bool :=
  Qlt_bool (vpip (stats self)) 20 && (20 <=? hands (stats self))%Z.

Definition is_loose (self : Player) : bool :=
  Qlt_bool 35 (vpip (stats self)) && (20 <=? hands (stats self))%Z.

Definition is_aggressive (self : Player) : bool :=
  Qlt_bool (5 # 2) (af (stats self)) && (20 <=? hands (stats self))%Z.

Definition is_passive (self : Player) : bool :=
  Qlt_bool (af (stats self)) (3 # 2) && (20 <=? hands (stats self))%Z.

Definition get_player_type (self : Player) : string :=
  if (hands (stats self) <? 20)%Z then "Unknown"
  else
    let tight := Qlt_bool (vpip (stats self)) 25 in
    let aggressive := Qlt_bool 2 (af (stats self)) in
    if tight && aggressive then "TAG (Tight Aggressive)"
    else if tight && negb aggressive then "TP (Tight Passive)"
    else if negb tight && aggressive then "LAG (Loose Aggressive)"
    else "LP (Loose Passive)".

(** ** Plain-mapping serialization *)

(** The values that the dictionaries of [to_dict] hold. *)
Inductive pyval :=
| PyNone
| PyBool (b : bool)
| PyInt (z : Z)
| PyFloat (q : Q)
| PyStr (s : string)
| PyStrList (l : list string)
| PyActions (l : list Action)
| PyPositions (m : gmap string (gmap string Q)).

(** A dictionary with its items in insertion order. *)
Definition pydict := list (string * pyval).

Fixpoint dict_get (d : pydict) (key : string) : option pyval :=
  match d with
  | [] => None
  | (k, v) :: rest => if String.eqb k key then Some v else dict_get rest key
  end.

(** Truth value of a Python object in a condition. *)
Definition truthy (v : pyval) : bool :=
  match v with
  | PyNone => false
  | PyBool b => b
  | PyInt z => negb (z =? 0)%Z
  | PyFloat q => negb (Qeq_bool q 0)
  | PyStr s => negb (String.eqb s "")
  | PyStrList l => negb (Nat.eqb (length l) 0)
  | PyActions l => negb (Nat.eqb (length l) 0)
  | PyPositions m => negb (Nat.eqb (size m) 0)
  end.

(** Reading a value at the type of the field it is stored in; [None]
    is a value of another type, which the annotations exclude. *)
Definition as_int (v : pyval) : option Z :=
  match v with PyInt z => Some z | _ => None end.
Definition as_float (v : pyval) : option Q :=
  match v with PyFloat q => Some q | PyInt z => Some (inject_Z z) | _ => None end.
Definition as_bool (v : pyval) : option bool :=
  match v with PyBool b => Some b | _ => None end.
Definition as_str (v : pyval) : option string :=
  match v with PyStr s => Some s | _ => None end.
Definition as_opt_str (v : pyval) : option (option string) :=
  match v with PyNone => Some None | PyStr s => Some (Some s) | _ => None end.
Definition as_opt_float (v : pyval) : option (option Q) :=
  match v with
  | PyNone => Some None
  | PyFloat q => Some (Some q)
  | PyInt z => Some (Some (inject_Z z))
  | _ => None
  end.
Definition as_str_list (v : pyval) : option (list string) :=
  match v with PyStrList l => Some l | _ => None end.
Definition as_actions (v : pyval) : option (list Action) :=
  match v with PyActions l => Some l | _ => None end.
Definition as_positions (v : pyval)
    : option (gmap string (gmap string Q)) :=
  match v with PyPositions m => Some m | _ => None end.

Definition of_opt_str (o : option string) : pyval :=
  match o with Some s => PyStr s | None => PyNone end.
Definition of_opt_float (o : option Q) : pyval :=
  match o with Some q => PyFloat q | None => PyNone end.

(** *** PlayerStats.to_dict / PlayerStats.from_dict *)

Definition PlayerStats_to_dict (self : PlayerStats) : pydict :=
  [ ("hands", PyInt (hands self));
    ("vpip", PyFloat (vpip self));
    ("pfr", PyFloat (pfr self));
    ("three_bet", PyFloat (three_bet self));
    ("fold_to_3bet", PyFloat (fold_to_3bet self));
    ("af", PyFloat (af self));
    ("wtsd", PyFloat (wtsd self));
    ("wssd", PyFloat (wssd self));
    ("cbet", PyFloat (cbet self)) ].

Definition PlayerStats_fields : list string :=
  [ "hands"; "vpip"; "pfr"; "three_bet"; "fold_to_3bet"; "af"; "wtsd";
    "wssd"; "cbet"; "vpip_opportunities"; "vpip_count";
    "pfr_opportunities"; "pfr_count"; "three_bet_opportunities";
    "three_bet_count"; "fold_to_3bet_opportunities"; "fold_to_3bet_count";
    "bets_raises"; "calls"; "showdown_opportunities"; "showdown_count";
    "showdown_wins"; "cbet_opportunities"; "cbet_count";
    "stats_by_position" ].

(** [hasattr(stats, key)] on the fields of the dataclass. *)
Definition hasattr (key : string) : bool := str_in key PlayerStats_fields.

(** Names of the other attributes an instance answers to (methods and
    double-underscore names): assigning to them is not modelled. *)
Definition other_attribute (key : string) : bool :=
  str_in key ["to_dict"; "from_dict"] || String.prefix "__" key.

(** [setattr(stats, key, value)] for a field [key]. *)
Definition setattr (stats : PlayerStats) (key : string) (value : pyval)
    : option PlayerStats :=
  let 'mkPlayerStats h vp pf tb ft a wt ws cb vo vc po pc to tc fo fc br
        ca so sc sw co cc sp := stats in
  let k s := String.eqb key s in
  if k "hands" then z ← as_int value;
    Some (mkPlayerStats z vp pf tb ft a wt ws cb vo vc po pc to tc fo fc br ca so sc sw co cc sp)
  else if k "vpip" then q ← as_float value;
    Some (mkPlayerStats h q pf tb ft a wt ws cb vo vc po pc to tc fo fc br ca so sc sw co cc sp)
  else if k "pfr" then q ← as_float value;
    Some (mkPlayerStats h vp q tb ft a wt ws cb vo vc po pc to tc fo fc br ca so sc sw co cc sp)
  else if k "three_bet" then q ← as_float value;
    Some (mkPlayerStats h vp pf q ft a wt ws cb vo vc po pc to tc fo fc br ca so sc sw co cc sp)
  else if k "fold_to_3bet" then q ← as_float value;
    Some (mkPlayerStats h vp pf tb q a wt ws cb vo vc po pc to tc fo fc br ca so sc sw co cc sp)
  else if k "af" then q ← as_float value;
    Some (mkPlayerStats h vp pf tb ft q wt ws cb vo vc po pc to tc fo fc br ca so sc sw co cc sp)
  else if k "wtsd" then q ← as_float value;
    Some (mkPlayerStats h vp pf tb ft a q ws cb vo vc po pc to tc fo fc br ca so sc sw co cc sp)
  else if k "wssd" then q ← as_float value;
    Some (mkPlayerStats h vp pf tb ft a wt q cb vo vc po pc to tc fo fc br ca so sc sw co cc sp)
  else if k "cbet" then q ← as_float value;
    Some (mkPlayerStats h vp pf tb ft a wt ws q vo vc po pc to tc fo fc br ca so sc sw co cc sp)
  else if k "vpip_opportunities" then z ← as_int value;
    Some (mkPlayerStats h vp pf tb ft a wt ws cb z vc po pc to tc fo fc br ca so sc sw co cc sp)
  else if k "vpip_count" then z ← as_int value;
    Some (mkPlayerStats h vp pf tb ft a wt ws cb vo z po pc to tc fo fc br ca so sc sw co cc sp)
  else if k "pfr_opportunities" then z ← as_int value;
    Some (mkPlayerStats h vp pf tb ft a wt ws cb vo vc z pc to tc fo fc br ca so sc sw co cc sp)
  else if k "pfr_count" then z ← as_int value;
    Some (mkPlayerStats h vp pf tb ft a wt ws cb vo vc po z to tc fo fc br ca so sc sw co cc sp)
  else if k "three_bet_opportunities" then z ← as_int value;
    Some (mkPlayerStats h vp pf tb ft a wt ws cb vo vc po pc z tc fo fc br ca so sc sw co cc sp)
  else if k "three_bet_count" then z ← as_int value;
    Some (mkPlayerStats h vp pf tb ft a wt ws cb vo vc po pc to z fo fc br ca so sc sw co cc sp)
  else if k "fold_to_3bet_opportunities" then z ← as_int value;
    Some (mkPlayerStats h vp pf tb ft a wt ws cb vo vc po pc to tc z fc br ca so sc sw co cc sp)
  else if k "fold_to_3bet_count" then z ← as_int value;
    Some (mkPlayerStats h vp pf tb ft a wt ws cb vo vc po pc to tc fo z br ca so sc sw co cc sp)
  else if k "bets_raises" then z ← as_int value;
    Some (mkPlayerStats h vp pf tb ft a wt ws cb vo vc po pc to tc fo fc z ca so sc sw co cc sp)
  else if k "calls" then z ← as_int value;
    Some (mkPlayerStats h vp pf tb ft a wt ws cb vo vc po pc to tc fo fc br z so sc sw co cc sp)
  else if k "showdown_opportunities" then z ← as_int value;
    Some (mkPlayerStats h vp pf tb ft a wt ws cb vo vc po pc to tc fo fc br ca z sc sw co cc sp)
  else if k "showdown_count" then z ← as_int value;
    Some (mkPlayerStats h vp pf tb ft a wt ws cb vo vc po pc to tc fo fc br ca so z sw co cc sp)
  else if k "showdown_wins" then z ← as_int value;
    Some (mkPlayerStats h vp pf tb ft a wt ws cb vo vc po pc to tc fo fc br ca so sc z co cc sp)
  else if k "cbet_opportunities" then z ← as_int value;
    Some (mkPlayerStats h vp pf tb ft a wt ws cb vo vc po pc to tc fo fc br ca so sc sw z cc sp)
  else if k "cbet_count" then z ← as_int value;
    Some (mkPlayerStats h vp pf tb ft a wt ws cb vo vc po pc to tc fo fc br ca so sc sw co z sp)
  else if k "stats_by_position" then m ← as_positions value;
    Some (mkPlayerStats h vp pf tb ft a wt ws cb vo vc po pc to tc fo fc br ca so sc sw co cc m)
  else None.

(** The loop of [PlayerStats.from_dict] over [data.items()]. *)
Fixpoint from_dict_loop (stats : PlayerStats) (items : pydict)
    : option PlayerStats :=
  match items with
  | [] => Some stats
  | (key, value) :: rest =>
      if hasattr key then
        stats' ← setattr stats key value; from_dict_loop stats' rest
      else if other_attribute key then None
      else from_dict_loop stats rest
  end.

Definition PlayerStats_from_dict (data : pydict) : option PlayerStats :=
  from_dict_loop PlayerStats_default data.

(** *** datetime.isoformat / datetime.fromisoformat *)

Definition digit_char (d : N) : ascii := ascii_of_N (48 + d).

Definition digit_of (c : ascii) : option N :=
  let n := N_of_ascii c in
  if (48 <=? n)%N && (n <=? 57)%N then Some (n - 48)%N else None.

(** [n] printed in decimal on [width] digits, zero padded. *)
Fixpoint pad (width : nat) (n : N) (tail : string) : string :=
  match width with
  | O => tail
  | S w => pad w (n / 10)%N (String (digit_char (n mod 10)%N) tail)
  end.

(** The decimal value of a sequence of digits. *)
Fixpoint number (acc : N) (cs : list ascii) : option N :=
  match cs with
  | [] => Some acc
  | c :: rest => d ← digit_of c; number (10 * acc + d)%N rest
  end.

Definition is_leap (y : N) : bool :=
  ((y mod 4 =? 0) && (negb (y mod 100 =? 0) || (y mod 400 =? 0)))%N.

Definition days_in_month (y m : N) : N :=
  (match m with
   | 2 => if is_leap y then 29 else 28
   | 4 | 6 | 9 | 11 => 30
   | _ => 31
   end)%N.

(** The ranges the [datetime] constructor enforces. *)
Definition valid_datetime (t : datetime) : bool :=
  ((1 <=? year t) && (year t <=? 9999) && (1 <=? month t) && (month t <=? 12)
   && (1 <=? day t) && (day t <=? days_in_month (year t) (month t))
   && (hour t <? 24) && (minute t <? 60) && (second t <? 60)
   && (microsecond t <? 1000000))%N.

(** [YYYY-MM-DDTHH:MM:SS], followed by [.ffffff] when the microsecond
    is not zero. *)
Definition isoformat (t : datetime) : string :=
  pad 4 (year t) (String "-" (pad 2 (month t) (String "-" (pad 2 (day t)
    (String "T" (pad 2 (hour t) (String ":" (pad 2 (minute t) (String ":"
      (pad 2 (second t)
         (if (microsecond t =? 0)%N then ""
          else String "." (pad 6 (microsecond t) "")))))))))))).

(** The inverse of [isoformat] on the two shapes it prints; [None] is
    the [ValueError] of a string that is not of these shapes or names
    no date. *)
Definition fromisoformat (s : string) : option datetime :=
  match list_ascii_of_string s with
  | y1 :: y2 :: y3 :: y4 :: c1 :: m1 :: m2 :: c2 :: d1 :: d2 :: c3
    :: h1 :: h2 :: c4 :: n1 :: n2 :: c5 :: s1 :: s2 :: frac =>
      if Ascii.eqb c1 "-" && Ascii.eqb c2 "-" && Ascii.eqb c3 "T"
         && Ascii.eqb c4 ":" && Ascii.eqb c5 ":" then
        y ← number 0 [y1; y2; y3; y4];
        m ← number 0 [m1; m2];
        d ← number 0 [d1; d2];
        h ← number 0 [h1; h2];
        n ← number 0 [n1; n2];
        sec ← number 0 [s1; s2];
        us ← match frac with
             | [] => Some 0%N
             | [dot; u1; u2; u3; u4; u5; u6] =>
                 if Ascii.eqb dot "." then number 0 [u1; u2; u3; u4; u5; u6]
                 else None
             | _ => None
             end;
        let t := mkDatetime y m d h n sec us in
        if valid_datetime t then Some t else None
      else None
  | _ => None
  end.

(** *** HandRecord.to_dict / HandRecord.from_dict *)

Definition HandRecord_to_dict (self : HandRecord) : pydict :=
  [ ("hand_id", PyStr (hand_id self));
    ("session_id", of_opt_str (session_id self));
    ("timestamp", PyStr (isoformat (timestamp self)));
    ("hero_cards", PyStrList (hero_cards self));
    ("board", PyStrList (board self));
    ("players", PyStrList (players self));
    ("hero_position", of_opt_str (hero_position self));
    ("small_blind", PyFloat (small_blind self));
    ("big_blind", PyFloat (big_blind self));
    ("actions", PyActions (actions self));
    ("result_bb", PyFloat (result_bb self));
    ("winner", of_opt_str (winner self));
    ("went_to_showdown", PyBool (went_to_showdown self));
    ("ai_action", of_opt_str (ai_action self));
    ("ai_reasoning", of_opt_str (ai_reasoning self));
    ("ai_confidence", of_opt_float (ai_confidence self)) ].

(** [HandRecord.from_dict]; the identifier and the clock reading that
    the defaults would draw are inputs. [None] is an exception
    ([fromisoformat] on a malformed string) or a value of a type the
    annotations of [HandRecord] exclude. *)
Definition HandRecord_from_dict (fresh_id : string) (now : datetime)
    (data : pydict) : option HandRecord :=
  let get key dflt := get_or (dict_get data key) dflt in
  hand_id' ← as_str (get "hand_id" (PyStr fresh_id));
  session_id' ← as_opt_str (get "session_id" PyNone);
  timestamp' ← (if truthy (get "timestamp" PyNone)
                then s ← as_str (get "timestamp" PyNone); fromisoformat s
                else Some now);
  hero_cards' ← as_str_list (get "hero_cards" (PyStrList []));
  board' ← as_str_list (get "board" (PyStrList []));
  players' ← as_str_list (get "players" (PyStrList []));
  hero_position' ← as_opt_str (get "hero_position" PyNone);
  small_blind' ← as_float (get "small_blind" (PyFloat 0));
  big_blind' ← as_float (get "big_blind" (PyFloat 0));
  actions' ← as_actions (get "actions" (PyActions []));
  result_bb' ← as_float (get "result_bb" (PyFloat 0));
  winner' ← as_opt_str (get "winner" PyNone);
  went_to_showdown' ← as_bool (get "went_to_showdown" (PyBool false));
  ai_action' ← as_opt_str (get "ai_action" PyNone);
  ai_reasoning' ← as_opt_str (get "ai_reasoning" PyNone);
  ai_confidence' ← as_opt_float (get "ai_confidence" PyNone);
  Some (mkHandRecord hand_id' session_id' timestamp' hero_cards' board'
          players' hero_position' small_blind' big_blind' actions'
          result_bb' winner' went_to_showdown' ai_action' ai_reasoning'
          ai_confidence').

(** ** Vocabulary of the specification

    The definitions of this part do not come from the source: they
    name, over the data of a hand, the counting rules that the
    specification words, so that the statistics the code computes can
    be compared with them. *)

(** Number of hands that satisfy [f]. *)
Definition count_hands (f : HandRecord -> bool) (hs : list HandRecord)
    : nat :=
  length (List.filter f hs).

(** [100 * occurrences / opportunities], and [0] without opportunities:
    the formula in the words of the specification, in exact
    arithmetic. It is used to state what the specification asks for;
    the code computes [percent]. *)
Definition rate (occurrences opportunities : nat) : Q :=
  if (opportunities =? 0)%nat then 0
  else 100 * inject_Z (Z.of_nat occurrences)
       / inject_Z (Z.of_nat opportunities).

Definition b2n (b : bool) : nat := if b then 1%nat else 0%nat.

Definition by_player (p : string) (a : Action) : bool :=
  get_eq (a_player a) p.

(** The action type, case folded; an action without a type has none. *)
Definition type_of (a : Action) : string :=
  lower (get_or (a_action_type a) "").

Definition is_type (t : string) (a : Action) : bool :=
  String.eqb (type_of a) t.

(** A raise made by somebody other than [p]. *)
Definition raise_by_other (p : string) (a : Action) : bool :=
  negb (by_player p a) && is_type "raise" a.

Definition raise_by (p : string) (a : Action) : bool :=
  by_player p a && is_type "raise" a.

(** Preflop for the two per-hand rates that take an action without a
    street for a preflop one. *)
Definition preflop_or_unset (a : Action) : bool :=
  String.eqb (get_or (a_street a) "preflop") "preflop".

Definition on_street (s : string) (a : Action) : bool :=
  get_eq (a_street a) s.

(** The preflop actions that open the hand: the actions up to the
    first one whose street is not preflop. *)
Fixpoint preflop_run (acts : list Action) : list Action :=
  match acts with
  | [] => []
  | a :: rest => if on_street "preflop" a then a :: preflop_run rest else []
  end.

(** The elements before, and after, the first one that satisfies [P]. *)
Fixpoint before_first {A} (P : A -> bool) (l : list A) : list A :=
  match l with
  | [] => []
  | x :: rest => if P x then [] else x :: before_first P rest
  end.

Fixpoint after_first {A} (P : A -> bool) (l : list A) : option (list A) :=
  match l with
  | [] => None
  | x :: rest => if P x then Some rest else after_first P rest
  end.

(** The action sought in a hand exists. *)
Definition has_action (o : option Action) : bool :=
  match o with Some _ => true | None => false end.

(** ... and is a fold. *)
Definition is_fold (o : option Action) : bool :=
  match o with Some a => is_type "fold" a | None => false end.

(** *** VPIP and PFR *)

(** The hand has a preflop call, raise or bet of [p]. *)
Definition voluntary_preflop (p : string) (h : HandRecord) : bool :=
  existsb (fun a => by_player p a && preflop_or_unset a
                    && str_in (type_of a) ["call"; "raise"; "bet"])
    (actions h).

(** The hand has a preflop raise of [p]. *)
Definition raised_preflop (p : string) (h : HandRecord) : bool :=
  existsb (fun a => by_player p a && preflop_or_unset a && is_type "raise" a)
    (actions h).

(** The first preflop action of [p] in the hand. *)
Definition first_preflop_action (p : string) (h : HandRecord)
    : option Action :=
  List.find (fun a => by_player p a && preflop_or_unset a) (actions h).

(** The first preflop action of [p] is a call, a bet or a raise. *)
Definition first_preflop_voluntary (p : string) (h : HandRecord) : bool :=
  match first_preflop_action p h with
  | Some a => str_in (type_of a) ["call"; "bet"; "raise"]
  | None => false
  end.

(** The VPIP rule as the specification words it. *)
Definition vpip_as_specified (p : string) (H : list HandRecord) : Prop :=
  vpip (calculate_stats p H)
  == rate (count_hands (first_preflop_voluntary p) (player_hands p H))
          (length (player_hands p H)).

(** *** 3-bet *)

(** The first action of [p] among the opening preflop actions. *)
Definition first_action (p : string) (h : HandRecord) : option Action :=
  List.find (by_player p) (preflop_run (actions h)).

(** [p] acts among the opening preflop actions, and a raise of another
    player comes before the first action of [p]. *)
Definition three_bet_opportunity (p : string) (h : HandRecord) : bool :=
  match first_action p h with
  | Some _ =>
      existsb (raise_by_other p)
        (before_first (by_player p) (preflop_run (actions h)))
  | None => false
  end.

(** ... and that first action of [p] is a raise. *)
Definition three_bet_occurrence (p : string) (h : HandRecord) : bool :=
  three_bet_opportunity p h
  && match first_action p h with
     | Some a => is_type "raise" a
     | None => false
     end.

(** The wording of the specification: the first action of [p] that
    follows a raise of another player. *)
Definition action_after_raise (p : string) (h : HandRecord)
    : option Action :=
  match after_first (raise_by_other p) (preflop_run (actions h)) with
  | Some rest => List.find (by_player p) rest
  | None => None
  end.

Definition three_bet_opportunity_as_specified (p : string) (h : HandRecord)
    : bool :=
  match action_after_raise p h with Some _ => true | None => false end.

Definition three_bet_occurrence_as_specified (p : string) (h : HandRecord)
    : bool :=
  match action_after_raise p h with
  | Some a => is_type "raise" a
  | None => false
  end.

Definition three_bet_as_specified (p : string) (H : list HandRecord)
    : Prop :=
  three_bet (calculate_stats p H)
  == rate (count_hands (three_bet_occurrence_as_specified p) H)
          (count_hands (three_bet_opportunity_as_specified p) H).

(** *** Fold to 3-bet *)

(** The action with which [p] answers: the first action of [p] after
    the first raise of another player that follows the first raise of
    [p], among the opening preflop actions. *)
Definition facing_action (p : string) (h : HandRecord) : option Action :=
  match after_first (raise_by p) (preflop_run (actions h)) with
  | Some s1 =>
      match after_first (raise_by_other p) s1 with
      | Some s2 => List.find (by_player p) s2
      | None => None
      end
  | None => None
  end.

Definition fold_to_3bet_opportunity (p : string) (h : HandRecord) : bool :=
  has_action (facing_action p h).

Definition fold_to_3bet_occurrence (p : string) (h : HandRecord) : bool :=
  is_fold (facing_action p h).

(** The wording of the specification: the first preflop raise is one
    of [p], and the next action of [p] comes after a raise of another
    player. *)
Definition facing_action_as_specified (p : string) (h : HandRecord)
    : option Action :=
  let run := preflop_run (actions h) in
  match List.find (is_type "raise") run with
  | Some r =>
      if by_player p r then
        match after_first (is_type "raise") run with
        | Some rest =>
            if existsb (raise_by_other p) (before_first (by_player p) rest)
            then List.find (by_player p) rest
            else None
        | None => None
        end
      else None
  | None => None
  end.

Definition fold_to_3bet_as_specified (p : string) (H : list HandRecord)
    : Prop :=
  fold_to_3bet (calculate_stats p H)
  == rate
       (count_hands (fun h => is_fold (facing_action_as_specified p h)) H)
       (count_hands (fun h => has_action (facing_action_as_specified p h)) H).

(** *** Continuation bet *)

(** [p] raised among the opening preflop actions. *)
Definition preflop_raiser (p : string) (h : HandRecord) : bool :=
  existsb (raise_by p) (preflop_run (actions h)).

(** ... and nobody else did. *)
Definition sole_preflop_raiser (p : string) (h : HandRecord) : bool :=
  preflop_raiser p h
  && negb (existsb (raise_by_other p) (preflop_run (actions h))).

(** The first flop action of [p]. *)
Definition flop_action (p : string) (h : HandRecord) : option Action :=
  List.find (fun a => on_street "flop" a && by_player p a) (actions h).

Definition is_cbet (o : option Action) : bool :=
  match o with
  | Some a => str_in (type_of a) ["bet"; "raise"]
  | None => false
  end.

Definition cbet_opportunity (p : string) (h : HandRecord) : bool :=
  preflop_raiser p h && has_action (flop_action p h).

Definition cbet_occurrence (p : string) (h : HandRecord) : bool :=
  preflop_raiser p h && is_cbet (flop_action p h).

Definition cbet_as_specified (p : string) (H : list HandRecord) : Prop :=
  cbet (calculate_stats p H)
  == rate
       (count_hands
          (fun h => sole_preflop_raiser p h && is_cbet (flop_action p h)) H)
       (count_hands
          (fun h => sole_preflop_raiser p h && has_action (flop_action p h))
          H).

(** *** Aggression factor *)

(** Number of actions of [p], on any street, whose type is in [ts]. *)
Definition count_actions (p : string) (ts : list string)
    (hs : list HandRecord) : nat :=
  length
    (List.filter (fun a => by_player p a && str_in (type_of a) ts)
       (flat_map actions hs)).

(** Bets and raises over calls; the raw count of bets and raises when
    there is no call. *)
Definition aggression_factor (bets_raises calls : nat) : Q :=
  if (calls =? 0)%nat then inject_Z (Z.of_nat bets_raises)
  else inject_Z (Z.of_nat bets_raises) / inject_Z (Z.of_nat calls).

Definition af_as_specified (p : string) (H : list HandRecord) : Prop :=
  af (calculate_stats p H)
  == aggression_factor (count_actions p ["bet"; "raise"] H)
       (count_actions p ["call"] H).

(** *** Serialization *)

(** A statistics record as [from_dict] rebuilds it from the nine
    entries of [to_dict]: the counters and the per-position breakdown
    are those of a fresh record. *)
Definition without_tracking (s : PlayerStats) : PlayerStats :=
  mkPlayerStats (hands s) (vpip s) (pfr s) (three_bet s) (fold_to_3bet s)
    (af s) (wtsd s) (wssd s) (cbet s) 0 0 0 0 0 0 0 0 0 0 0 0 0 0 0 ∅.

Definition PlayerStats_roundtrip (s : PlayerStats) : Prop :=
  PlayerStats_from_dict (PlayerStats_to_dict s) = Some s.

(** *** One hand played through the store *)

(** What happens between two hand boundaries: the arguments of
    [start_new_hand], what the caller writes to the record it got
    back, and the arguments of [end_hand]. *)
Record HandPlay := mkHandPlay {
  play_id : string;
  play_now : datetime;
  play_session : option string;
  play_edit : HandRecord -> HandRecord;
  play_result : Q;
  play_winner : option string
}.

Definition play_hand (self : HandHistory) (x : HandPlay) : HandHistory :=
  let '(self, _) :=
    start_new_hand self (play_id x) (play_now x) (play_session x) in
  end_hand (write_current self (play_edit x)) (play_result x)
    (play_winner x).

Definition play_hands (self : HandHistory) (xs : list HandPlay)
    : HandHistory :=
  fold_left play_hand xs self.

(** The record that [end_hand] files for a played hand. *)
Definition finalized (x : HandPlay) : HandRecord :=
  set_result
    (play_edit x (HandRecord_new (play_id x) (play_now x) (play_session x)))
    (play_result x) (play_winner x).

(** ** Sample data *)

Definition noon : datetime := mkDatetime 2024 3 9 12 0 0 0.

(** An action dictionary with the keys [player], [action_type] and
    [street]. *)
Definition act (player action_type street : string) : Action :=
  mkAction (Some player) (Some action_type) None (Some street) None.

(** [HandRecord(players=..., actions=...)] *)
Definition hand_of (players : list string) (actions : list Action)
    : HandRecord :=
  mkHandRecord "a1b2c3d4" None noon [] [] players None 0 0 actions 0 None
    false None None None.

(** Hero checks, faces a raise and calls. *)
Definition check_call_hand : HandRecord :=
  hand_of ["Hero"; "Villain"]
    [ act "Hero" "check" "preflop";
      act "Villain" "raise" "preflop";
      act "Hero" "call" "preflop" ].

(** Hero calls, faces a raise and raises back. *)
Definition limp_reraise_hand : HandRecord :=
  hand_of ["Hero"; "Villain"]
    [ act "Hero" "call" "preflop";
      act "Villain" "raise" "preflop";
      act "Hero" "raise" "preflop" ].

(** Villain opens, Hero raises, Villain raises again, Hero folds. *)
Definition fold_to_4bet_hand : HandRecord :=
  hand_of ["Hero"; "Villain"]
    [ act "Villain" "raise" "preflop";
      act "Hero" "raise" "preflop";
      act "Villain" "raise" "preflop";
      act "Hero" "fold" "preflop" ].

(** Hero opens, Villain raises, Hero calls and bets the flop. *)
Definition called_3bet_hand : HandRecord :=
  hand_of ["Hero"; "Villain"]
    [ act "Hero" "raise" "preflop";
      act "Villain" "raise" "preflop";
      act "Hero" "call" "preflop";
      act "Hero" "bet" "flop" ].

(** A record as [HandRecord()] and three calls of [add_action] leave
    it: nobody is listed in [players]. *)
Definition unlisted_hand : HandRecord :=
  add_action
    (add_action
       (add_action (HandRecord_new "a1b2c3d4" noon None)
          "Hero" "bet" (Some 2%Q) "flop" "2024-03-09T12:00:01")
       "Hero" "bet" (Some 4%Q) "turn" "2024-03-09T12:00:02")
    "Hero" "raise" (Some 8%Q) "river" "2024-03-09T12:00:03".

(** The same three actions in a hand that lists Hero. *)
Definition three_bets_hand : HandRecord :=
  hand_of ["Hero"; "Villain"]
    [ act "Hero" "bet" "flop"; act "Hero" "bet" "turn";
      act "Hero" "raise" "river" ].

Definition stats_with_counters : PlayerStats :=
  mkPlayerStats 50 30 (45 # 2) 0 0 0 0 0 0 50 15 0 0 0 0 0 0 0 0 0 0 0 0 0 ∅.

Definition sample_play : HandPlay :=
  mkHandPlay "a1b2c3d4" noon None (fun h => h) 10 None.

Definition player_with (hands' : Z) (vpip' af' : Q) : Player :=
  mkPlayer "Villain" 0 0 false None
    (mkPlayerStats hands' vpip' 0 0 0 af' 0 0 0 0 0 0 0 0 0 0 0 0 0 0 0 0 0 0 ∅)
    None "".

(** ** The rest of the three modules *)

(** *** poker/stats_calculator.py *)

(** [StatsCalculator.get_stats_dict] *)
Definition get_stats_dict (player_name : string) (hs : list HandRecord)
    : pydict :=
  PlayerStats_to_dict (calculate_stats player_name hs).

(** *** Vocabulary for the showdown rates *)

(** [p] has a flop action in the hand. *)
Definition saw_flop (p : string) (h : HandRecord) : bool :=
  existsb (fun a => by_player p a && on_street "flop" a) (actions h).

(** The hand was won by [p]. *)
Definition won_by (p : string) (h : HandRecord) : bool :=
  get_eq (winner h) p.

(** A hand with its actions replaced. *)
Definition with_actions (f : list Action -> list Action) (h : HandRecord)
    : HandRecord :=
  mkHandRecord (hand_id h) (session_id h) (timestamp h) (hero_cards h)
    (board h) (players h) (hero_position h) (small_blind h) (big_blind h)
    (f (actions h)) (result_bb h) (winner h) (went_to_showdown h)
    (ai_action h) (ai_reasoning h) (ai_confidence h).

(** An action with its type in lower case. *)
Definition fold_case (a : Action) : Action :=
  mkAction (a_player a) (lower <$> a_action_type a) (a_amount a)
    (a_street a) (a_timestamp a).

(** *** poker/hand_history.py *)

(** The text of one action in [get_action_sequence]; [None] is the
    KeyError of an action without a [player] or an [action_type] key.
    [render] is [str] on the amount. *)
Definition action_str (render : Q -> string) (action : Action)
    : option string :=
  player ← a_player action;
  action_type ← a_action_type action;
  let action_str := (player ++ ": " ++ action_type)%string in
  Some (if truthy (of_opt_float (a_amount action))
        then (action_str ++ " " ++ render (get_or (a_amount action) 0%Q))%string
        else action_str).

(** The loop of [get_action_sequence], which fills [parts]. *)
Fixpoint action_parts (render : Q -> string) (acts : list Action)
    : option (list string) :=
  match acts with
  | [] => Some []
  | action :: rest =>
      s ← action_str render action;
      parts ← action_parts render rest;
      Some (s :: parts)
  end.

Definition get_action_sequence (render : Q -> string) (self : HandRecord)
    : option string :=
  parts ← action_parts render (actions self);
  Some (String.concat " -> " parts).

(** The dictionary of [to_summary]. *)
Record Summary := mkSummary {
  sum_hero_cards : string;
  sum_board : string;
  sum_position : option string;
  sum_result_bb : Q;
  sum_action_summary : string
}.

Definition to_summary (render : Q -> string) (self : HandRecord)
    : option Summary :=
  let hero_cards' := String.concat " " (hero_cards self) in
  let board' :=
    match board self with
    | [] => "No board"
    | _ => String.concat " " (board self)
    end in
  sequence ← get_action_sequence render self;
  Some (mkSummary hero_cards' board' (hero_position self) (result_bb self)
          (substring 0 100 sequence)).

(** [self._hands[-count:] if self._hands else []] *)
Definition get_recent_hands (self : HandHistory) (count : Z)
    : list HandRecord :=
  match _hands self with
  | [] => []
  | _ => slice_from (_hands self) (- count)
  end.

Definition get_hands_by_player (self : HandHistory) (player_name : string)
    : list HandRecord :=
  List.filter (fun h => str_in player_name (players h)) (_hands self).

(** [sum(h.result_bb for h in self._hands)] *)
Definition get_total_profit_bb (self : HandHistory) : Q :=
  fold_left Qplus (map result_bb (_hands self)) 0%Q.

Definition get_hands_count (self : HandHistory) : Z :=
  Z.of_nat (length (_hands self)).

(** The list comprehension of [get_summaries_for_ai]. *)
Fixpoint summaries (render : Q -> string) (hs : list HandRecord)
    : option (list Summary) :=
  match hs with
  | [] => Some []
  | h :: rest =>
      s ← to_summary render h;
      ss ← summaries render rest;
      Some (s :: ss)
  end.

Definition get_summaries_for_ai (render : Q -> string) (self : HandHistory)
    (count : Z) : option (list Summary) :=
  summaries render (get_recent_hands self count).

(** [HandHistory.clear] *)
Definition HandHistory_clear (self : HandHistory) : HandHistory :=
  mkHandHistory [] (_max_hands self) None.

(** [HandHistory.to_list] *)
Definition HandHistory_to_list (self : HandHistory) : list pydict :=
  map HandRecord_to_dict (_hands self).

(** The list comprehension of [load_from_list]; [fresh i] is the
    identifier and the clock reading drawn while the [i]-th dictionary
    is read. *)
Fixpoint from_dicts (fresh : nat -> string * datetime) (i : nat)
    (data : list pydict) : option (list HandRecord) :=
  match data with
  | [] => Some []
  | d :: rest =>
      h ← HandRecord_from_dict (fst (fresh i)) (snd (fresh i)) d;
      hs ← from_dicts fresh (S i) rest;
      Some (h :: hs)
  end.

Definition load_from_list (self : HandHistory)
    (fresh : nat -> string * datetime) (data : list pydict)
    : option HandHistory :=
  hs ← from_dicts fresh 0 data;
  Some (mkHandHistory hs (_max_hands self) (_current_hand self)).

(** The calls a client makes on a store between its construction and
    a query. *)
Inductive StoreCall :=
| CallStart (fresh_id : string) (now : datetime) (session_id : option string)
| CallWrite (edit : HandRecord -> HandRecord)
| CallEnd (result_bb : Q) (winner : option string).

Definition call (self : HandHistory) (c : StoreCall) : HandHistory :=
  match c with
  | CallStart fresh_id now session_id =>
      fst (start_new_hand self fresh_id now session_id)
  | CallWrite edit => write_current self edit
  | CallEnd result_bb winner => end_hand self result_bb winner
  end.

Definition calls_on (self : HandHistory) (cs : list StoreCall)
    : HandHistory :=
  fold_left call cs self.

(** A record filled by calls of [add_action] only. *)
Definition add_actions (h : HandRecord)
    (args : list (string * string * option Q * string * string))
    : HandRecord :=
  fold_left
    (fun h '(player, action_type, amount, street, now_iso) =>
       add_action h player action_type amount street now_iso)
    args h.

(** [HandRecord(session_id=...)] followed by calls of [add_action]. *)
Definition built_by_add_action
    (b : string * datetime * option string
         * list (string * string * option Q * string * string))
    : HandRecord :=
  let '(fresh_id, now, session_id, args) := b in
  add_actions (HandRecord_new fresh_id now session_id) args.

Definition is_end (c : StoreCall) : bool :=
  match c with CallEnd _ _ => true | _ => false end.

Definition lacks_key (a : Action) : bool :=
  match a_player a, a_action_type a with
  | Some _, Some _ => false
  | _, _ => true
  end.

(** *** poker/player.py *)

(** [Player.update_stats]; the clock reading is an input. *)
Definition update_stats (self : Player) (new_stats : PlayerStats)
    (now : datetime) : Player :=
  mkPlayer (name self) (seat self) (stack self) (is_hero self)
    (position self) new_stats (Some now) (notes self).

(** [StatsCalculator.update_player_stats] *)
Definition update_player_stats (player : Player) (hs : list HandRecord)
    (now : datetime) : Player :=
  update_stats player (calculate_stats (name player) hs) now.

(** [getattr(stats, name)] on the fields of the dataclass. *)
Definition getattr (stats : PlayerStats) (key : string) : option pyval :=
  let k s := String.eqb key s in
  if k "hands" then Some (PyInt (hands stats))
  else if k "vpip" then Some (PyFloat (vpip stats))
  else if k "pfr" then Some (PyFloat (pfr stats))
  else if k "three_bet" then Some (PyFloat (three_bet stats))
  else if k "fold_to_3bet" then Some (PyFloat (fold_to_3bet stats))
  else if k "af" then Some (PyFloat (af stats))
  else if k "wtsd" then Some (PyFloat (wtsd stats))
  else if k "wssd" then Some (PyFloat (wssd stats))
  else if k "cbet" then Some (PyFloat (cbet stats))
  else if k "vpip_opportunities" then Some (PyInt (vpip_opportunities stats))
  else if k "vpip_count" then Some (PyInt (vpip_count stats))
  else if k "pfr_opportunities" then Some (PyInt (pfr_opportunities stats))
  else if k "pfr_count" then Some (PyInt (pfr_count stats))
  else if k "three_bet_opportunities"
       then Some (PyInt (three_bet_opportunities stats))
  else if k "three_bet_count" then Some (PyInt (three_bet_count stats))
  else if k "fold_to_3bet_opportunities"
       then Some (PyInt (fold_to_3bet_opportunities stats))
  else if k "fold_to_3bet_count" then Some (PyInt (fold_to_3bet_count stats))
  else if k "bets_raises" then Some (PyInt (bets_raises stats))
  else if k "calls" then Some (PyInt (calls stats))
  else if k "showdown_opportunities"
       then Some (PyInt (showdown_opportunities stats))
  else if k "showdown_count" then Some (PyInt (showdown_count stats))
  else if k "showdown_wins" then Some (PyInt (showdown_wins stats))
  else if k "cbet_opportunities" then Some (PyInt (cbet_opportunities stats))
  else if k "cbet_count" then Some (PyInt (cbet_count stats))
  else if k "stats_by_position" then Some (PyPositions (stats_by_position stats))
  else None.

(** What [Player.get_stat] returns: a value, or one of the other
    attributes of the statistics object (a bound method, a special
    attribute), given by its name. *)
Inductive stat_result :=
| StatValue (v : pyval)
| OtherAttribute (name : string).

(** [Player.get_stat]: [getattr(self.stats, stat_name, 0.0)].
    [attributes] lists the names, other than the fields, that the
    statistics object of the running interpreter answers to (its
    methods [to_dict] and [from_dict], and special names such as
    [__class__]); any other name, with or without underscores, is no
    attribute and gives the default. *)
Definition get_stat (attributes : list string) (self : Player)
    (stat_name : string) : stat_result :=
  match getattr (stats self) stat_name with
  | Some v => StatValue v
  | None =>
      if str_in stat_name attributes then OtherAttribute stat_name
      else StatValue (PyFloat 0)
  end.

(** The values of the dictionary of [Player.to_dict]: plain values,
    and the nested dictionary of the statistics. *)
Inductive player_val :=
| PVal (v : pyval)
| PDict (d : pydict).

Definition player_dict := list (string * player_val).

Fixpoint player_dict_get (d : player_dict) (key : string)
    : option player_val :=
  match d with
  | [] => None
  | (k, v) :: rest =>
      if String.eqb k key then Some v else player_dict_get rest key
  end.

Definition player_val_truthy (v : player_val) : bool :=
  match v with
  | PVal v => truthy v
  | PDict d => negb (Nat.eqb (length d) 0)
  end.

Definition as_val (v : player_val) : option pyval :=
  match v with PVal v => Some v | PDict _ => None end.

Definition Player_to_dict (self : Player) : player_dict :=
  [ ("name", PVal (PyStr (name self)));
    ("seat", PVal (PyInt (seat self)));
    ("stack", PVal (PyFloat (stack self)));
    ("is_hero", PVal (PyBool (is_hero self)));
    ("position", PVal (of_opt_str (position self)));
    ("stats", PDict (PlayerStats_to_dict (stats self)));
    ("last_updated",
     PVal (match last_updated self with
           | Some t => PyStr (isoformat t)
           | None => PyNone
           end));
    ("notes", PVal (PyStr (notes self))) ].

(** [Player.from_dict]. [None] is an exception (the KeyError of a
    missing [name], [fromisoformat] on a malformed string) or a value
    of a type the annotations of [Player] exclude. *)
Definition Player_from_dict (data : player_dict) : option Player :=
  let get key dflt := get_or (player_dict_get data key) dflt in
  stats' ← match get "stats" (PDict []) with
           | PDict d => PlayerStats_from_dict d
           | PVal _ => None
           end;
  last_updated' ← (if player_val_truthy (get "last_updated" (PVal PyNone))
                   then v ← as_val (get "last_updated" (PVal PyNone));
                        s ← as_str v; t ← fromisoformat s; Some (Some t)
                   else Some None);
  name' ← (v ← player_dict_get data "name"; v ← as_val v; as_str v);
  seat' ← (v ← as_val (get "seat" (PVal (PyInt 0))); as_int v);
  stack' ← (v ← as_val (get "stack" (PVal (PyFloat 0))); as_float v);
  is_hero' ← (v ← as_val (get "is_hero" (PVal (PyBool false))); as_bool v);
  position' ← (v ← as_val (get "position" (PVal PyNone)); as_opt_str v);
  notes' ← (v ← as_val (get "notes" (PVal (PyStr ""))); as_str v);
  Some (mkPlayer name' seat' stack' is_hero' position' stats' last_updated'
          notes').

(** A player with the statistics replaced. *)
Definition with_stats (self : Player) (s : PlayerStats) : Player :=
  mkPlayer (name self) (seat self) (stack self) (is_hero self)
    (position self) s (last_updated self) (notes self).

Definition valid_last_updated (self : Player) : bool :=
  match last_updated self with
  | Some t => valid_datetime t
  | None => true
  end.


(** *** data/session_manager.py *)






Module Session.

Record t := mk {
  session_id : string;
  start_time : datetime;
  end_time : option datetime;
  hands_played : Z;
  profit_bb : Q;
  notes : string
}.

(** [Session(notes=notes)]; the identifier and the clock reading are
    inputs. *)
Definition new (fresh_id : string) (now : datetime) (notes : string) : t :=
  mk fresh_id now None 0 0 notes.


End Session.

(** The manager without its CSV files: the session in progress, its
    hand history and the sessions ended so far. *)
Record SessionManager := mkSessionManager {
  _current_session : option Session.t;
  _hand_history : option HandHistory;
  _sessions : list Session.t
}.

Definition start_session (self : SessionManager) (fresh_id : string)
    (now : datetime) (notes : string) : SessionManager * Session.t :=
  let session := Session.new fresh_id now notes in
  (mkSessionManager (Some session) (Some (HandHistory_init 1000))
     (_sessions self),
   session).

Definition end_session (self : SessionManager) (now : datetime)
    : SessionManager * option Session.t :=
  match _current_session self with
  | None => (self, None)
  | Some session =>
      let session :=
        Session.mk (Session.session_id session) (Session.start_time session)
          (Some now) (Session.hands_played session)
          (Session.profit_bb session) (Session.notes session) in
      let session :=
        match _hand_history self with
        | Some history =>
            Session.mk (Session.session_id session)
              (Session.start_time session) (Session.end_time session)
              (get_hands_count history) (get_total_profit_bb history)
              (Session.notes session)
        | None => session
        end in
      (mkSessionManager None None (_sessions self ++ [session]),
       Some session)
  end.

(** What a client does to the store it reaches through the
    [hand_history] property. *)
Definition on_history (self : SessionManager)
    (f : HandHistory -> HandHistory) : SessionManager :=
  mkSessionManager (_current_session self) (f <$> _hand_history self)
    (_sessions self).

Definition record_hand_result (self : SessionManager) (result_bb : Q)
    (winner : option string) : SessionManager :=
  match _hand_history self with
  | Some history =>
      match _current_hand history with
      | Some _ =>
          mkSessionManager (_current_session self)
            (Some (end_hand history result_bb winner)) (_sessions self)
      | None => self
      end
  | None => self
  end.



(** Four raises each: the text of the actions has 128 characters. *)
Definition raising_war_hand : HandRecord :=
  hand_of ["Hero"; "Villain"]
    [ act "Hero" "raise" "preflop"; act "Villain" "raise" "preflop";
      act "Hero" "raise" "preflop"; act "Villain" "raise" "preflop";
      act "Hero" "raise" "preflop"; act "Villain" "raise" "preflop";
      act "Hero" "raise" "preflop"; act "Villain" "raise" "preflop" ].


(** Names a PlayerStats object answers to besides its fields. *)
Definition sample_attributes : list string :=
  [ "to_dict"; "from_dict"; "__class__"; "__dict__"; "__init__"; "__eq__";
    "__repr__"; "__dataclass_fields__" ].

(** * Properties *)

(** ** Arithmetic of the rates *)

Lemma inject_nat_pos (n : nat) : (n =? 0)%nat = false -> (0 < inject_Z (Z.of_nat n))%Q.
Proof.
  intros Hn. apply Nat.eqb_neq in Hn.
  change 0%Q with (inject_Z 0). rewrite <- Zlt_Qlt. lia.
Qed.

Lemma percent_mono (c1 c2 o : nat) :
  (c1 <= c2)%nat -> (percent c1 o <= percent c2 o)%Q.
Proof.
  intros Hc. unfold percent. destruct (o =? 0)%nat eqn:Ho; [apply Qle_refl|].
  pose proof (inject_nat_pos o Ho) as Hpos.
  apply Qmult_le_compat_r; [|discriminate].
  unfold Qdiv. apply Qmult_le_compat_r.
  - rewrite <- Zle_Qle. lia.
  - apply Qlt_le_weak, Qinv_lt_0_compat, Hpos.
Qed.

(** ** The loops over the hands *)

Lemma fold_count (f : HandRecord -> bool) (hs : list HandRecord) (o c : nat) :
  fold_left (fun '(o, c) h => (S o, if f h then S c else c)) hs (o, c)
  = ((o + length hs)%nat, (c + count_hands f hs)%nat).
Proof.
  revert o c. induction hs as [|h hs IH]; intros o c; simpl.
  - unfold count_hands. simpl. f_equal; lia.
  - rewrite IH. unfold count_hands. simpl.
    destruct (f h); simpl; f_equal; lia.
Qed.

(** A loop whose body adds to the two counters what one hand contributes. *)
Lemma fold_increments (scan : HandRecord -> nat -> nat -> nat * nat)
    (opp occ : HandRecord -> bool) (hs : list HandRecord) (o c : nat) :
  (forall h o c, scan h o c = ((o + b2n (opp h))%nat, (c + b2n (occ h))%nat)) ->
  fold_left (fun '(o, c) h => scan h o c) hs (o, c)
  = ((o + count_hands opp hs)%nat, (c + count_hands occ hs)%nat).
Proof.
  intros Hscan. revert o c.
  induction hs as [|h hs IH]; intros o c; simpl.
  - unfold count_hands. simpl. f_equal; lia.
  - rewrite Hscan, IH. unfold count_hands. simpl.
    destruct (opp h), (occ h); simpl; f_equal; lia.
Qed.

Lemma count_hands_ext (f g : HandRecord -> bool) (hs : list HandRecord) :
  (forall h, f h = g h) -> count_hands f hs = count_hands g hs.
Proof.
  intros Hfg. unfold count_hands.
  induction hs as [|h hs IH]; simpl; [reflexivity|].
  rewrite Hfg. destruct (g h); simpl; congruence.
Qed.

Lemma count_hands_le (f g : HandRecord -> bool) (hs : list HandRecord) :
  (forall h, f h = true -> g h = true) ->
  (count_hands f hs <= count_hands g hs)%nat.
Proof.
  intros Hfg. unfold count_hands.
  induction hs as [|h hs IH]; simpl; [lia|].
  destruct (f h) eqn:Hf.
  - rewrite (Hfg h Hf). simpl. lia.
  - destruct (g h); simpl; lia.
Qed.

Lemma count_hands_bound (f : HandRecord -> bool) (hs : list HandRecord) :
  (count_hands f hs <= length hs)%nat.
Proof.
  unfold count_hands. induction hs as [|h hs IH]; simpl; [lia|].
  destruct (f h); simpl; lia.
Qed.

(** ** calculate_stats hands every statistic the hands that list the player *)

Lemma length_zero_nil (ph : list HandRecord) :
  (Z.of_nat (length ph) =? 0)%Z = true -> ph = [].
Proof.
  intros E. apply Z.eqb_eq in E.
  destruct ph; [reflexivity | simpl in E; lia].
Qed.

Ltac stats_field :=
  intros; unfold calculate_stats;
  match goal with |- context [match ?H with [] => _ | _ :: _ => _ end] =>
    destruct H as [|?h ?t]; [reflexivity|] end;
  match goal with |- context [player_hands ?p ?hs] =>
    generalize (player_hands p hs); intro end;
  cbv zeta; unfold set_hands at 1; simpl hands;
  match goal with |- context [(Z.of_nat (length ?l) =? 0)%Z] =>
    let E := fresh "E" in
    destruct (Z.of_nat (length l) =? 0)%Z eqn:E;
    [rewrite (length_zero_nil _ E); reflexivity | reflexivity] end.

Lemma calculate_stats_vpip p H :
  vpip (calculate_stats p H) = _calculate_vpip p (player_hands p H).
Proof. stats_field. Qed.

Lemma calculate_stats_pfr p H :
  pfr (calculate_stats p H) = _calculate_pfr p (player_hands p H).
Proof. stats_field. Qed.

Lemma calculate_stats_three_bet p H :
  three_bet (calculate_stats p H) = _calculate_3bet p (player_hands p H).
Proof. stats_field. Qed.

Lemma calculate_stats_fold_to_3bet p H :
  fold_to_3bet (calculate_stats p H)
  = _calculate_fold_to_3bet p (player_hands p H).
Proof. stats_field. Qed.

Lemma calculate_stats_af p H :
  af (calculate_stats p H) = _calculate_af p (player_hands p H).
Proof. stats_field. Qed.

Lemma calculate_stats_cbet p H :
  cbet (calculate_stats p H) = _calculate_cbet p (player_hands p H).
Proof. stats_field. Qed.

Lemma calculate_stats_hands p H :
  hands (calculate_stats p H) = Z.of_nat (length (player_hands p H)).
Proof.
  unfold calculate_stats. destruct H as [|h t]; [reflexivity|].
  generalize (player_hands p (h :: t)); intros ph.
  cbv zeta. unfold set_hands at 1. simpl hands.
  destruct (Z.of_nat (length ph) =? 0)%Z; reflexivity.
Qed.

(** ** VPIP and PFR *)

Section PerPlayer.
Variable p : string.

Lemma vpip_scan_existsb (acts : list Action) :
  vpip_scan p acts
  = existsb (fun a => by_player p a && preflop_or_unset a
                      && str_in (type_of a) ["call"; "raise"; "bet"]) acts.
Proof.
  induction acts as [|a rest IH]; [reflexivity|].
  cbn [vpip_scan existsb]. cbv zeta.
  unfold by_player at 1, preflop_or_unset at 1, type_of at 1.
  destruct (get_eq (a_player a) p); cbn [andb orb]; [|exact IH].
  destruct (String.eqb (get_or (a_street a) "preflop") "preflop"
            && str_in (lower (get_or (a_action_type a) ""))
                 ["call"; "raise"; "bet"]); cbn [orb]; [reflexivity|exact IH].
Qed.

Lemma pfr_scan_existsb (acts : list Action) :
  pfr_scan p acts
  = existsb (fun a => by_player p a && preflop_or_unset a
                      && is_type "raise" a) acts.
Proof.
  induction acts as [|a rest IH]; [reflexivity|].
  cbn [pfr_scan existsb]. cbv zeta.
  unfold by_player at 1, preflop_or_unset at 1, is_type at 1, type_of at 1.
  destruct (get_eq (a_player a) p); cbn [andb orb]; [|exact IH].
  destruct (String.eqb (get_or (a_street a) "preflop") "preflop"
            && String.eqb (lower (get_or (a_action_type a) "")) "raise");
    cbn [orb]; [reflexivity|exact IH].
Qed.

Lemma calculate_vpip_count (hs : list HandRecord) :
  _calculate_vpip p hs
  = percent (count_hands (voluntary_preflop p) hs) (length hs).
Proof.
  unfold _calculate_vpip.
  rewrite (fold_count (fun h => vpip_scan p (actions h))). simpl.
  f_equal. apply count_hands_ext. intros h. apply vpip_scan_existsb.
Qed.

Lemma calculate_pfr_count (hs : list HandRecord) :
  _calculate_pfr p hs
  = percent (count_hands (raised_preflop p) hs) (length hs).
Proof.
  unfold _calculate_pfr.
  rewrite (fold_count (fun h => pfr_scan p (actions h))). simpl.
  f_equal. apply count_hands_ext. intros h. apply pfr_scan_existsb.
Qed.

Lemma raised_is_voluntary (h : HandRecord) :
  raised_preflop p h = true -> voluntary_preflop p h = true.
Proof.
  unfold raised_preflop, voluntary_preflop.
  rewrite !existsb_exists. intros [a [Hin Ha]]. exists a. split; [exact Hin|].
  apply andb_prop in Ha as [Ha Hr]. rewrite Ha. cbn [andb].
  unfold is_type in Hr. apply String.eqb_eq in Hr. rewrite Hr. reflexivity.
Qed.
End PerPlayer.

(** C1 (as amended). For every player p and list of hand records H,
    calculate_stats(p, H).vpip equals (k / n) * 100, where n is the
    number of hands of H that list p in their players and k the number
    of those hands in which p has at least one preflop action that is
    a call, a bet or a raise (an action without a street counts as
    preflop), and 0 when n is 0. The quotient is taken first and then
    multiplied by 100, as the code does in floating point. *)
Theorem vpip_counts_any_voluntary_preflop_action (p : string)
    (H : list HandRecord) :
  vpip (calculate_stats p H)
  = percent (count_hands (voluntary_preflop p) (player_hands p H))
      (length (player_hands p H)).
Proof.
  rewrite calculate_stats_vpip. apply calculate_vpip_count.
Qed.

(** C1, counterexample. Hero checks, faces a raise and calls: the
    first preflop action of Hero is a check, and the hand counts for
    VPIP all the same. *)
Lemma vpip_first_action_counterexample :
  ~ vpip_as_specified "Hero" [check_call_hand].
Proof.
  unfold vpip_as_specified. vm_compute. discriminate.
Qed.

(** C10. For every player p and list of hand records H,
    calculate_stats(p, H).pfr is at most calculate_stats(p, H).vpip:
    a hand counted as a preflop raise is counted as money put in
    voluntarily, and both rates divide by the same number of hands. *)
Theorem pfr_le_vpip (p : string) (H : list HandRecord) :
  (pfr (calculate_stats p H) <= vpip (calculate_stats p H))%Q.
Proof.
  rewrite calculate_stats_pfr, calculate_stats_vpip.
  rewrite calculate_pfr_count, calculate_vpip_count.
  apply percent_mono, count_hands_le. apply raised_is_voluntary.
Qed.

(** ** Aggression factor *)

Lemma bet_raise_not_call (t : string) :
  str_in t ["bet"; "raise"] = true -> String.eqb t "call" = false.
Proof.
  unfold str_in. cbn [existsb]. rewrite orb_false_r.
  intros Ht. apply orb_prop in Ht as [Ht|Ht];
    apply String.eqb_eq in Ht; subst t; reflexivity.
Qed.

Lemma af_step_counts (p : string) (acts : list Action) (b c : nat) :
  fold_left (af_step p) acts (b, c)
  = ((b + length (List.filter
                    (fun a => by_player p a
                              && str_in (type_of a) ["bet"; "raise"]) acts))%nat,
     (c + length (List.filter
                    (fun a => by_player p a
                              && str_in (type_of a) ["call"]) acts))%nat).
Proof.
  unfold by_player, type_of.
  revert b c. induction acts as [|a rest IH]; intros b c.
  - simpl. f_equal; lia.
  - cbn [fold_left List.filter]. unfold af_step at 2.
    destruct (get_eq (a_player a) p); cbn [andb].
    + destruct (str_in (lower (get_or (a_action_type a) "")) ["bet"; "raise"])
        eqn:Hbr.
      * rewrite IH.
        replace (str_in (lower (get_or (a_action_type a) "")) ["call"])
          with false
          by (unfold str_in; cbn [existsb];
              rewrite (bet_raise_not_call _ Hbr); reflexivity).
        cbn [length]. f_equal; lia.
      * replace (str_in (lower (get_or (a_action_type a) "")) ["call"])
          with (String.eqb (lower (get_or (a_action_type a) "")) "call")
          by (unfold str_in; cbn [existsb]; rewrite orb_false_r; reflexivity).
        destruct (String.eqb (lower (get_or (a_action_type a) "")) "call");
          rewrite IH; cbn [length]; f_equal; lia.
    + rewrite IH. f_equal.
Qed.

Lemma af_counts_count_actions (p : string) (hs : list HandRecord) :
  af_counts p hs
  = (count_actions p ["bet"; "raise"] hs, count_actions p ["call"] hs).
Proof.
  unfold af_counts, count_actions.
  enough (forall b c,
    fold_left (fun st hand => fold_left (af_step p) (actions hand) st)
      hs (b, c)
    = ((b + length (List.filter
               (fun a => by_player p a
                         && str_in (type_of a) ["bet"; "raise"])
               (flat_map actions hs)))%nat,
       (c + length (List.filter
               (fun a => by_player p a && str_in (type_of a) ["call"])
               (flat_map actions hs)))%nat)) as Hgen
    by (rewrite Hgen; reflexivity).
  induction hs as [|h hs IH]; intros b c.
  - simpl. f_equal; lia.
  - cbn [fold_left flat_map]. rewrite af_step_counts, IH.
    rewrite !List.filter_app, !List.length_app. f_equal; lia.
Qed.

Lemma calculate_af_factor (p : string) (hs : list HandRecord) :
  _calculate_af p hs
  = aggression_factor (count_actions p ["bet"; "raise"] hs)
      (count_actions p ["call"] hs).
Proof.
  unfold _calculate_af. rewrite af_counts_count_actions.
  unfold aggression_factor.
  destruct (count_actions p ["call"] hs =? 0)%nat; [|reflexivity].
  destruct (count_actions p ["bet"; "raise"] hs); reflexivity.
Qed.

(** The three cases of the factor: a quotient when the player called,
    the raw count of bets and raises when the player never called, and
    0 when the player did neither. *)
Lemma aggression_factor_cases (b c : nat) :
  ((c =? 0)%nat = false ->
     aggression_factor b c = (inject_Z (Z.of_nat b) / inject_Z (Z.of_nat c))%Q)
  /\ aggression_factor b 0 = inject_Z (Z.of_nat b)
  /\ aggression_factor 0 0 = 0%Q.
Proof.
  unfold aggression_factor. repeat split. intros Hc. rewrite Hc. reflexivity.
Qed.

(** C6 (as amended). For every player p and list of hand records H,
    calculate_stats(p, H).af equals the number of bet and raise
    actions of p, on any street, divided by the number of call actions
    of p, both counted over the hands of H that list p in their
    players; when that call count is 0 the factor is the raw count of
    bets and raises (3 bets or raises and no call give 3), which is 0
    when both counts are 0. *)
Theorem af_counts_listed_hands (p : string) (H : list HandRecord) :
  af (calculate_stats p H)
  = aggression_factor
      (count_actions p ["bet"; "raise"] (player_hands p H))
      (count_actions p ["call"] (player_hands p H)).
Proof.
  rewrite calculate_stats_af. apply calculate_af_factor.
Qed.

(** C6, counterexample. A record filled by [add_action] alone lists
    nobody in [players]: Hero's three bets and raises in it are not
    counted, and the factor is 0 instead of 3. *)
Lemma af_unlisted_hand_counterexample :
  ~ af_as_specified "Hero" [unlisted_hand].
Proof.
  unfold af_as_specified. vm_compute. discriminate.
Qed.

(** Scenario 3 of the specification, on a hand that lists the player. *)
Example af_three_bets_no_call :
  af (calculate_stats "Hero" [three_bets_hand]) = 3%Q.
Proof. reflexivity. Qed.

(** ** Operations on a store without an open hand *)

(** C7. In every store state in which no hand is open, end_hand
    returns normally and leaves the store as it was: the closed hands
    and the empty open slot are unchanged. *)
Theorem end_hand_without_open_hand (self : HandHistory) (result_bb : Q)
    (winner : option string) :
  _current_hand self = None ->
  end_hand self result_bb winner = self
  /\ _hands (end_hand self result_bb winner) = _hands self
  /\ _current_hand (end_hand self result_bb winner) = None.
Proof.
  intros Hnone. unfold end_hand. rewrite Hnone. auto.
Qed.

Lemma end_hand_without_open_hand_witness :
  _current_hand (HandHistory_init 1000) = None
  /\ end_hand (HandHistory_init 1000) 10 (Some "Hero") = HandHistory_init 1000.
Proof.
  split; [reflexivity|].
  apply (end_hand_without_open_hand (HandHistory_init 1000) 10 (Some "Hero")).
  reflexivity.
Defined.

(** ** Classification of a player *)

Lemma Qlt_bool_iff (x y : Q) : Qlt_bool x y = true <-> (x < y)%Q.
Proof.
  unfold Qlt_bool. rewrite negb_true_iff. split.
  - intros Hle. apply Qnot_le_lt. intros Hyx.
    apply Qle_bool_iff in Hyx. congruence.
  - intros Hlt. destruct (Qle_bool y x) eqn:Hle; [|reflexivity].
    apply Qle_bool_iff in Hle. exfalso. exact (Qlt_not_le _ _ Hlt Hle).
Qed.

Lemma Qlt_bool_false (x y : Q) : Qlt_bool x y = false <-> ~ (x < y)%Q.
Proof.
  rewrite <- Qlt_bool_iff. destruct (Qlt_bool x y); split; congruence.
Qed.

(** C8. A player with fewer than 20 hands is neither tight, loose,
    aggressive nor passive, and is of type "Unknown". With 20 hands or
    more, is_tight holds iff vpip < 20, is_loose iff vpip > 35,
    is_aggressive iff af > 2.5, is_passive iff af < 1.5, and
    get_player_type picks one of four quadrants from the coarser pair
    vpip < 25 and af > 2.0. *)
Theorem classification_thresholds (self : Player) :
  let s := stats self in
  ((hands s < 20)%Z ->
     is_tight self = false /\ is_loose self = false
     /\ is_aggressive self = false /\ is_passive self = false
     /\ get_player_type self = "Unknown")
  /\ ((20 <= hands s)%Z ->
     (is_tight self = true <-> (vpip s < 20)%Q)
     /\ (is_loose self = true <-> (35 < vpip s)%Q)
     /\ (is_aggressive self = true <-> (5 # 2 < af s)%Q)
     /\ (is_passive self = true <-> (af s < 3 # 2)%Q)
     /\ ((vpip s < 25)%Q -> (2 < af s)%Q ->
           get_player_type self = "TAG (Tight Aggressive)")
     /\ ((vpip s < 25)%Q -> ~ (2 < af s)%Q ->
           get_player_type self = "TP (Tight Passive)")
     /\ (~ (vpip s < 25)%Q -> (2 < af s)%Q ->
           get_player_type self = "LAG (Loose Aggressive)")
     /\ (~ (vpip s < 25)%Q -> ~ (2 < af s)%Q ->
           get_player_type self = "LP (Loose Passive)")).
Proof.
  cbv zeta. split.
  - intros Hfew.
    assert ((20 <=? hands (stats self))%Z = false) as Hgate
      by (apply Z.leb_gt; exact Hfew).
    unfold is_tight, is_loose, is_aggressive, is_passive, get_player_type.
    rewrite Hgate, !andb_false_r.
    apply Z.ltb_lt in Hfew. rewrite Hfew. repeat split.
  - intros Henough.
    assert ((20 <=? hands (stats self))%Z = true) as Hgate
      by (apply Z.leb_le; exact Henough).
    assert ((hands (stats self) <? 20)%Z = false) as Hnot
      by (apply Z.ltb_ge; exact Henough).
    unfold is_tight, is_loose, is_aggressive, is_passive, get_player_type.
    rewrite Hgate, Hnot, !andb_true_r. cbv zeta.
    repeat split; try (apply Qlt_bool_iff); try (apply Qlt_bool_iff; assumption).
    + intros Ht Ha. apply Qlt_bool_iff in Ht, Ha. rewrite Ht, Ha. reflexivity.
    + intros Ht Ha. apply Qlt_bool_iff in Ht. apply Qlt_bool_false in Ha.
      rewrite Ht, Ha. reflexivity.
    + intros Ht Ha. apply Qlt_bool_false in Ht. apply Qlt_bool_iff in Ha.
      rewrite Ht, Ha. reflexivity.
    + intros Ht Ha. apply Qlt_bool_false in Ht, Ha.
      rewrite Ht, Ha. reflexivity.
Qed.

Lemma classification_thresholds_witness :
  ((hands (stats (player_with 5 30 2)) < 20)%Z
   /\ get_player_type (player_with 5 30 2) = "Unknown")
  /\ ((20 <= hands (stats (player_with 50 22 3)))%Z
      /\ (vpip (stats (player_with 50 22 3)) < 25)%Q
      /\ (2 < af (stats (player_with 50 22 3)))%Q
      /\ get_player_type (player_with 50 22 3) = "TAG (Tight Aggressive)").
Proof.
  split.
  - split; [reflexivity|].
    apply (proj1 (classification_thresholds (player_with 5 30 2))).
    reflexivity.
  - split; [discriminate|]. split; [reflexivity|]. split; [reflexivity|].
    apply (proj2 (classification_thresholds (player_with 50 22 3)));
      [discriminate | reflexivity | reflexivity].
Defined.

(** ** Continuation bet *)

Section Cbet.
Variable p : string.

Lemma aggressor_scan_run (acts : list Action) (b : bool) :
  aggressor_scan p acts b = b || existsb (raise_by p) (preflop_run acts).
Proof.
  unfold raise_by, by_player, is_type, type_of, on_street.
  revert b. induction acts as [|a rest IH]; intros b.
  - simpl. rewrite orb_false_r. reflexivity.
  - cbn [aggressor_scan preflop_run]. unfold on_street.
    destruct (get_eq (a_street a) "preflop"); cbn [negb existsb].
    + rewrite !IH.
      destruct (get_eq (a_player a) p
                && String.eqb (lower (get_or (a_action_type a) "")) "raise");
        cbn [orb]; [rewrite orb_true_r|]; reflexivity.
    + rewrite orb_false_r. reflexivity.
Qed.

Lemma cbet_flop_scan_find (acts : list Action) (o c : nat) :
  cbet_flop_scan p acts o c
  = ((o + b2n (has_action
                 (List.find (fun a => on_street "flop" a && by_player p a)
                    acts)))%nat,
     (c + b2n (is_cbet
                 (List.find (fun a => on_street "flop" a && by_player p a)
                    acts)))%nat).
Proof.
  unfold by_player, on_street.
  induction acts as [|a rest IH].
  - simpl. f_equal; lia.
  - cbn [cbet_flop_scan List.find].
    destruct (get_eq (a_street a) "flop" && get_eq (a_player a) p).
    + unfold has_action, is_cbet, type_of.
      destruct (str_in (lower (get_or (a_action_type a) "")) ["bet"; "raise"]);
        simpl; f_equal; lia.
    + exact IH.
Qed.

Lemma cbet_hand (h : HandRecord) (o c : nat) :
  (if negb (aggressor_scan p (actions h) false) then (o, c)
   else cbet_flop_scan p (actions h) o c)
  = ((o + b2n (cbet_opportunity p h))%nat,
     (c + b2n (cbet_occurrence p h))%nat).
Proof.
  unfold cbet_opportunity, cbet_occurrence, preflop_raiser, flop_action.
  rewrite aggressor_scan_run. cbn [orb].
  destruct (existsb (raise_by p) (preflop_run (actions h))); cbn [negb andb].
  - apply cbet_flop_scan_find.
  - simpl. f_equal; lia.
Qed.

Lemma calculate_cbet_count (hs : list HandRecord) :
  _calculate_cbet p hs
  = percent (count_hands (cbet_occurrence p) hs)
      (count_hands (cbet_opportunity p) hs).
Proof.
  unfold _calculate_cbet.
  rewrite (fold_increments
             (fun h o c =>
                if negb (aggressor_scan p (actions h) false) then (o, c)
                else cbet_flop_scan p (actions h) o c)
             (cbet_opportunity p) (cbet_occurrence p))
    by apply cbet_hand.
  reflexivity.
Qed.
End Cbet.

(** What the loops of _calculate_cbet count, over the hands that list
    p: an opportunity is a hand in which p made a raise among the
    opening preflop actions and has a flop action; an occurrence is
    one in which the first flop action of p is a bet or a raise.
    Nothing asks that p be the last, or the only, preflop raiser. *)
Lemma cbet_counts_any_preflop_raiser (p : string) (H : list HandRecord) :
  cbet (calculate_stats p H)
  = percent (count_hands (cbet_occurrence p) (player_hands p H))
      (count_hands (cbet_opportunity p) (player_hands p H)).
Proof.
  rewrite calculate_stats_cbet. apply calculate_cbet_count.
Qed.

(** C4, the code at the failing input. Hero opens, Villain raises,
    Hero calls and bets the flop: Villain made the last preflop raise
    and Hero is not the sole preflop raiser, so by the claim the hand
    is no continuation-bet opportunity of Hero and the statistic is 0;
    the code counts it as an opportunity and as a continuation bet,
    and returns 100. *)
Theorem cbet_credited_to_caller_of_3bet :
  cbet (calculate_stats "Hero" [called_3bet_hand]) = 100%Q
  /\ existsb (raise_by_other "Hero") (preflop_run (actions called_3bet_hand))
     = true
  /\ sole_preflop_raiser "Hero" called_3bet_hand = false
  /\ ~ cbet_as_specified "Hero" [called_3bet_hand].
Proof.
  repeat split.
  unfold cbet_as_specified. vm_compute. discriminate.
Qed.

(** ** 3-bet *)

Section ThreeBet.
Variable p : string.

(** Once the player has acted, the loop changes no counter. *)
Lemma three_bet_scan_acted (acts : list Action) (raise_seen : bool)
    (o c : nat) :
  three_bet_scan p acts raise_seen true o c = (o, c).
Proof.
  revert raise_seen. induction acts as [|a rest IH]; intros rs;
    [reflexivity|].
  cbn [three_bet_scan]. cbv zeta.
  destruct (get_eq (a_street a) "preflop"); cbn [negb]; [|reflexivity].
  rewrite !andb_false_r.
  destruct (String.eqb (lower (get_or (a_action_type a) "")) "raise"),
           (get_eq (a_player a) p); cbn [negb]; apply IH.
Qed.

(** Before the player acts, with [raise_seen] telling whether another
    player raised already. *)
Lemma three_bet_scan_run (acts : list Action) (raise_seen : bool)
    (o c : nat) :
  three_bet_scan p acts raise_seen false o c
  = let run := preflop_run acts in
    let opp :=
      match List.find (by_player p) run with
      | Some _ =>
          raise_seen
          || existsb (raise_by_other p) (before_first (by_player p) run)
      | None => false
      end in
    let first_is_raise :=
      match List.find (by_player p) run with
      | Some a => is_type "raise" a
      | None => false
      end in
    ((o + b2n opp)%nat, (c + b2n (opp && first_is_raise))%nat).
Proof.
  cbv zeta. revert raise_seen.
  induction acts as [|a rest IH]; intros rs.
  - simpl. f_equal; lia.
  - cbn [three_bet_scan preflop_run]. cbv zeta. unfold on_street.
    destruct (get_eq (a_street a) "preflop"); cbn [negb];
      [|simpl; f_equal; lia].
    cbn [List.find before_first].
    change (by_player p a) with (get_eq (a_player a) p).
    destruct (get_eq (a_player a) p) eqn:Hp; cbn [negb andb].
    + cbn [existsb]. rewrite orb_false_r.
      change (is_type "raise" a)
        with (String.eqb (lower (get_or (a_action_type a) "")) "raise").
      rewrite !three_bet_scan_acted.
      destruct (String.eqb (lower (get_or (a_action_type a) "")) "raise"),
               rs; simpl; f_equal; lia.
    + cbn [existsb].
      change (raise_by_other p a)
        with (negb (get_eq (a_player a) p)
              && String.eqb (lower (get_or (a_action_type a) "")) "raise").
      rewrite Hp. cbn [negb andb].
      destruct (String.eqb (lower (get_or (a_action_type a) "")) "raise");
        rewrite IH; cbn [orb]; [rewrite orb_true_r|]; reflexivity.
Qed.

Lemma three_bet_hand (h : HandRecord) (o c : nat) :
  three_bet_scan p (actions h) false false o c
  = ((o + b2n (three_bet_opportunity p h))%nat,
     (c + b2n (three_bet_occurrence p h))%nat).
Proof.
  rewrite three_bet_scan_run. cbv zeta.
  unfold three_bet_occurrence, three_bet_opportunity, first_action.
  cbn [orb]. reflexivity.
Qed.

Lemma calculate_3bet_count (hs : list HandRecord) :
  _calculate_3bet p hs
  = percent (count_hands (three_bet_occurrence p) hs)
      (count_hands (three_bet_opportunity p) hs).
Proof.
  unfold _calculate_3bet.
  rewrite (fold_increments
             (fun h o c => three_bet_scan p (actions h) false false o c)
             (three_bet_opportunity p) (three_bet_occurrence p))
    by apply three_bet_hand.
  reflexivity.
Qed.
End ThreeBet.

(** C2 (as amended). For every player p and list of hand records H,
    calculate_stats(p, H).three_bet counts, among the hands of H that
    list p in their players, as an opportunity every hand in which,
    scanning the opening preflop actions in order, a raise by a player
    other than p comes before the first action of p in the hand (a
    player who acted before the raise has no opportunity), as an
    occurrence those opportunities in which that first action of p is
    a raise, and returns (occurrences / opportunities) * 100, the
    quotient first as the code computes it in floating point, and 0
    without opportunities. *)
Theorem three_bet_counts_first_action (p : string) (H : list HandRecord) :
  three_bet (calculate_stats p H)
  = percent (count_hands (three_bet_occurrence p) (player_hands p H))
      (count_hands (three_bet_opportunity p) (player_hands p H)).
Proof.
  rewrite calculate_stats_three_bet. apply calculate_3bet_count.
Qed.

(** C2, counterexample. Hero calls, Villain raises, Hero raises back:
    the first action of Hero after the raise of Villain is a raise,
    and the hand is no 3-bet opportunity of Hero, who had acted. *)
Lemma three_bet_limp_reraise_counterexample :
  ~ three_bet_as_specified "Hero" [limp_reraise_hand].
Proof.
  unfold three_bet_as_specified. vm_compute. discriminate.
Qed.

(** A hand that does not list the player is no opportunity either,
    whatever its actions. *)
Example three_bet_unlisted_hand :
  three_bet
    (calculate_stats "Hero"
       [hand_of ["Villain"]
          [act "Villain" "raise" "preflop"; act "Hero" "raise" "preflop"]])
  = 0%Q.
Proof. reflexivity. Qed.

(** ** Fold to 3-bet *)

Section FoldTo3Bet.
Variable p : string.

(** The player raised and was raised: the next action of the player
    decides. *)
Lemma fold_scan_faced (acts : list Action) (o c : nat) :
  fold_to_3bet_scan p acts true true o c
  = let facing := List.find (by_player p) (preflop_run acts) in
    ((o + b2n (has_action facing))%nat, (c + b2n (is_fold facing))%nat).
Proof.
  cbv zeta. induction acts as [|a rest IH]; [simpl; f_equal; lia|].
  cbn [fold_to_3bet_scan preflop_run]. cbv zeta. unfold on_street.
  destruct (get_eq (a_street a) "preflop"); cbn [negb];
    [|simpl; f_equal; lia].
  cbn [List.find]. change (by_player p a) with (get_eq (a_player a) p).
  rewrite andb_false_r.
  destruct (get_eq (a_player a) p).
  - unfold has_action, is_fold, is_type, type_of.
    destruct (String.eqb (lower (get_or (a_action_type a) "")) "fold");
      simpl; f_equal; lia.
  - cbn [andb].
    destruct (String.eqb (lower (get_or (a_action_type a) "")) "raise");
      exact IH.
Qed.

(** The player raised: the first raise of another player is awaited. *)
Lemma fold_scan_raised (acts : list Action) (o c : nat) :
  fold_to_3bet_scan p acts true false o c
  = let facing :=
      match after_first (raise_by_other p) (preflop_run acts) with
      | Some s2 => List.find (by_player p) s2
      | None => None
      end in
    ((o + b2n (has_action facing))%nat, (c + b2n (is_fold facing))%nat).
Proof.
  cbv zeta. induction acts as [|a rest IH]; [simpl; f_equal; lia|].
  cbn [fold_to_3bet_scan preflop_run]. cbv zeta. unfold on_street.
  destruct (get_eq (a_street a) "preflop"); cbn [negb];
    [|simpl; f_equal; lia].
  cbn [after_first].
  change (raise_by_other p a)
    with (negb (get_eq (a_player a) p)
          && String.eqb (lower (get_or (a_action_type a) "")) "raise").
  rewrite andb_false_r.
  destruct (get_eq (a_player a) p); cbn [negb andb]; [exact IH|].
  destruct (String.eqb (lower (get_or (a_action_type a) "")) "raise");
    [apply fold_scan_faced | exact IH].
Qed.

(** From the start of the hand: the first raise of the player is
    awaited. *)
Lemma fold_scan_start (acts : list Action) (o c : nat) :
  fold_to_3bet_scan p acts false false o c
  = let facing :=
      match after_first (raise_by p) (preflop_run acts) with
      | Some s1 =>
          match after_first (raise_by_other p) s1 with
          | Some s2 => List.find (by_player p) s2
          | None => None
          end
      | None => None
      end in
    ((o + b2n (has_action facing))%nat, (c + b2n (is_fold facing))%nat).
Proof.
  cbv zeta. induction acts as [|a rest IH]; [simpl; f_equal; lia|].
  cbn [fold_to_3bet_scan preflop_run]. cbv zeta. unfold on_street.
  destruct (get_eq (a_street a) "preflop"); cbn [negb];
    [|simpl; f_equal; lia].
  cbn [after_first].
  change (raise_by p a)
    with (get_eq (a_player a) p
          && String.eqb (lower (get_or (a_action_type a) "")) "raise").
  rewrite andb_true_r.
  destruct (get_eq (a_player a) p); cbn [negb andb]; [|exact IH].
  destruct (String.eqb (lower (get_or (a_action_type a) "")) "raise");
    [apply fold_scan_raised | exact IH].
Qed.

Lemma fold_to_3bet_hand (h : HandRecord) (o c : nat) :
  fold_to_3bet_scan p (actions h) false false o c
  = ((o + b2n (fold_to_3bet_opportunity p h))%nat,
     (c + b2n (fold_to_3bet_occurrence p h))%nat).
Proof. apply fold_scan_start. Qed.

Lemma calculate_fold_to_3bet_count (hs : list HandRecord) :
  _calculate_fold_to_3bet p hs
  = percent (count_hands (fold_to_3bet_occurrence p) hs)
      (count_hands (fold_to_3bet_opportunity p) hs).
Proof.
  unfold _calculate_fold_to_3bet.
  rewrite (fold_increments
             (fun h o c => fold_to_3bet_scan p (actions h) false false o c)
             (fold_to_3bet_opportunity p) (fold_to_3bet_occurrence p))
    by apply fold_to_3bet_hand.
  reflexivity.
Qed.
End FoldTo3Bet.

(** What the loop of _calculate_fold_to_3bet counts, over the hands
    that list p: an opportunity is a hand in which p raised among the
    opening preflop actions, somebody else raised after the first
    raise of p, and p acted after that; an occurrence is one in which
    that action of p is a fold. Nothing asks that the raise of p be
    the first raise of the hand. *)
Lemma fold_to_3bet_counts_any_raise (p : string) (H : list HandRecord) :
  fold_to_3bet (calculate_stats p H)
  = percent (count_hands (fold_to_3bet_occurrence p) (player_hands p H))
      (count_hands (fold_to_3bet_opportunity p) (player_hands p H)).
Proof.
  rewrite calculate_stats_fold_to_3bet. apply calculate_fold_to_3bet_count.
Qed.

(** C3, the code at the failing input. Villain opens, Hero raises
    (the 3-bet), Villain raises again (the 4-bet) and Hero folds: the
    first preflop raise is Villain's, so by the claim the hand is no
    fold-to-3-bet opportunity of Hero and the statistic is 0; the code
    counts it as an opportunity and as a fold, and returns 100. *)
Theorem fold_to_4bet_counted_as_fold_to_3bet :
  fold_to_3bet (calculate_stats "Hero" [fold_to_4bet_hand]) = 100%Q
  /\ List.find (is_type "raise") (preflop_run (actions fold_to_4bet_hand))
     = Some (act "Villain" "raise" "preflop")
  /\ facing_action_as_specified "Hero" fold_to_4bet_hand = None
  /\ ~ fold_to_3bet_as_specified "Hero" [fold_to_4bet_hand].
Proof.
  repeat split.
  unfold fold_to_3bet_as_specified. vm_compute. discriminate.
Qed.

(** ** Capacity of the store *)

Lemma play_hand_state (self : HandHistory) (x : HandPlay) :
  _hands (play_hand self x)
  = (let hs := _hands self ++ [finalized x] in
     if (_max_hands self <? Z.of_nat (length hs))%Z
     then slice_from hs (- _max_hands self) else hs)
  /\ _max_hands (play_hand self x) = _max_hands self
  /\ _current_hand (play_hand self x) = None.
Proof. repeat split. Qed.

Lemma play_hands_max (xs : list HandPlay) (self : HandHistory) :
  _max_hands (play_hands self xs) = _max_hands self.
Proof.
  revert self. induction xs as [|x xs IH]; intros self; [reflexivity|].
  unfold play_hands in *. cbn [fold_left]. rewrite IH.
  apply play_hand_state.
Qed.

(** With a capacity of at least one, the slice of [end_hand] keeps
    the last [max_hands] records. *)
Lemma slice_from_last {A} (l : list A) (m : Z) :
  (1 <= m)%Z -> slice_from l (- m) = drop (length l - Z.to_nat m) l.
Proof.
  intros Hm. unfold slice_from.
  destruct (- m <? 0)%Z eqn:Hneg; [|apply Z.ltb_ge in Hneg; lia].
  f_equal. lia.
Qed.

(** With a capacity of zero, the slice of [end_hand] is [l[0:]]. *)
Lemma slice_from_zero {A} (l : list A) : slice_from l (- 0) = l.
Proof.
  unfold slice_from. cbn [Z.opp Z.ltb Z.compare].
  rewrite Z.min_l by lia. reflexivity.
Qed.

Lemma play_hands_last (xs : list HandPlay) (self : HandHistory) :
  (1 <= _max_hands self)%Z ->
  (Z.of_nat (length (_hands self)) <= _max_hands self)%Z ->
  let all := _hands self ++ map finalized xs in
  _hands (play_hands self xs)
  = drop (length all - Z.to_nat (_max_hands self)) all.
Proof.
  cbv zeta. revert self. induction xs as [|x xs IH]; intros self Hm Hlen.
  - cbn [play_hands fold_left map]. rewrite app_nil_r.
    replace (length (_hands self) - Z.to_nat (_max_hands self))%nat
      with 0%nat by lia.
    reflexivity.
  - unfold play_hands in *. cbn [fold_left map].
    destruct (play_hand_state self x) as (Hhs & Hmax & _).
    cbv zeta in Hhs. rewrite slice_from_last in Hhs by exact Hm.
    assert (length (_hands self ++ [finalized x])
            = S (length (_hands self))) as Hl1
      by (rewrite length_app; simpl; lia).
    rewrite IH; rewrite ?Hmax; [|exact Hm|].
    + rewrite Hhs.
      destruct (_max_hands self <? Z.of_nat (length (_hands self ++ [finalized x])))%Z
        eqn:Hfull.
      * apply Z.ltb_lt in Hfull.
        rewrite <- drop_app_le by lia.
        rewrite drop_drop, <- app_assoc. cbn [app].
        f_equal. rewrite !length_app, !length_drop, !length_app.
        simpl. lia.
      * apply Z.ltb_ge in Hfull.
        rewrite <- app_assoc. cbn [app]. reflexivity.
    + rewrite Hhs.
      destruct (_max_hands self <? Z.of_nat (length (_hands self ++ [finalized x])))%Z
        eqn:Hfull.
      * rewrite length_drop. lia.
      * apply Z.ltb_ge in Hfull. lia.
Qed.

(** The capacity law, for a capacity of at least one: after any number
    of hands played through a fresh store, the closed hands are the
    last [max_hands] finalized records, in the order in which they
    were played, and never more than [max_hands]. *)
Lemma capacity_law (max_hands : Z) (xs : list HandPlay) :
  (1 <= max_hands)%Z ->
  let self := play_hands (HandHistory_init max_hands) xs in
  _hands self = drop (length xs - Z.to_nat max_hands) (map finalized xs)
  /\ (Z.of_nat (length (_hands self)) <= max_hands)%Z
  /\ ((max_hands < Z.of_nat (length xs))%Z ->
      Z.of_nat (length (_hands self)) = max_hands).
Proof.
  intros Hm. cbv zeta.
  pose proof (play_hands_last xs (HandHistory_init max_hands) Hm) as Hlast.
  cbn [HandHistory_init _hands _max_hands length app] in Hlast.
  specialize (Hlast ltac:(lia)). cbv zeta in Hlast.
  rewrite length_map in Hlast. rewrite Hlast.
  split; [reflexivity|].
  rewrite length_drop, length_map. split; [lia|]. intros Hover. lia.
Qed.

Lemma play_hands_zero (xs : list HandPlay) (self : HandHistory) :
  _max_hands self = 0%Z ->
  _hands (play_hands self xs) = _hands self ++ map finalized xs.
Proof.
  revert self. induction xs as [|x xs IH]; intros self Hzero.
  - cbn [play_hands fold_left map]. rewrite app_nil_r. reflexivity.
  - unfold play_hands in *. cbn [fold_left map].
    destruct (play_hand_state self x) as (Hhs & Hmax & _).
    rewrite IH by (rewrite Hmax; exact Hzero).
    rewrite Hhs, Hzero. cbv zeta. rewrite slice_from_zero.
    destruct (0 <? Z.of_nat (length (_hands self ++ [finalized x])))%Z;
      rewrite <- app_assoc; reflexivity.
Qed.

(** C5, the code at the failing capacity. A store built with
    max_hands = 0 evicts nothing: after any sequence of hands its
    closed list holds every finalized record, since the trimming slice
    [self._hands[-0:]] is the whole list. *)
Theorem capacity_zero_keeps_every_hand (xs : list HandPlay) :
  _hands (play_hands (HandHistory_init 0) xs) = map finalized xs.
Proof.
  rewrite play_hands_zero by reflexivity. reflexivity.
Qed.

(** One hand played through a store of capacity 0 stays in it. *)
Example capacity_zero_one_hand :
  length (_hands (play_hands (HandHistory_init 0) [sample_play])) = 1%nat.
Proof. reflexivity. Qed.

(** ** Serialization *)

Lemma digit_of_char (d : N) : (d < 10)%N -> digit_of (digit_char d) = Some d.
Proof.
  intros Hd.
  assert (d = 0 \/ d = 1 \/ d = 2 \/ d = 3 \/ d = 4 \/ d = 5 \/ d = 6
          \/ d = 7 \/ d = 8 \/ d = 9)%N as Hcases by lia.
  repeat (destruct Hcases as [->|Hcases]; [reflexivity|]).
  subst d. reflexivity.
Qed.

Lemma mod10_digit (n : N) : (n mod 10 < 10)%N.
Proof. apply N.mod_lt. discriminate. Qed.

(** One decimal digit is peeled off at a time. *)
Lemma peel_digit (n : N) : (10 * (n / 10) + n mod 10 = n)%N.
Proof. symmetry. apply N.div_mod'. Qed.

Lemma top_digit (n : N) : (n < 10)%N -> (10 * 0 + n mod 10 = n)%N.
Proof.
  intros Hn. rewrite N.mul_0_r, N.add_0_l. apply N.mod_small, Hn.
Qed.

Lemma div10_lt (n b : N) : (n < 10 * b)%N -> (n / 10 < b)%N.
Proof. intros Hn. apply N.Div0.div_lt_upper_bound. exact Hn. Qed.

Lemma two_digits (n : N) :
  (n < 100)%N -> (10 * (10 * 0 + n / 10 mod 10) + n mod 10 = n)%N.
Proof.
  intros Hn. rewrite top_digit by (apply div10_lt; exact Hn).
  apply peel_digit.
Qed.

Lemma four_digits (n : N) :
  (n < 10000)%N ->
  (10 * (10 * (10 * (10 * 0 + n / 10 / 10 / 10 mod 10) + n / 10 / 10 mod 10)
         + n / 10 mod 10) + n mod 10 = n)%N.
Proof.
  intros Hn. rewrite top_digit by (do 3 apply div10_lt; exact Hn).
  rewrite !peel_digit. reflexivity.
Qed.

Lemma six_digits (n : N) :
  (n < 1000000)%N ->
  (10 * (10 * (10 * (10 * (10 * (10 * 0 + n / 10 / 10 / 10 / 10 / 10 mod 10)
                           + n / 10 / 10 / 10 / 10 mod 10)
                     + n / 10 / 10 / 10 mod 10) + n / 10 / 10 mod 10)
         + n / 10 mod 10) + n mod 10 = n)%N.
Proof.
  intros Hn. rewrite top_digit by (do 5 apply div10_lt; exact Hn).
  rewrite !peel_digit. reflexivity.
Qed.

Lemma valid_datetime_bounds (t : datetime) :
  valid_datetime t = true ->
  (year t < 10000 /\ month t < 100 /\ day t < 100 /\ hour t < 100
   /\ minute t < 100 /\ second t < 100 /\ microsecond t < 1000000)%N.
Proof.
  unfold valid_datetime. rewrite !andb_true_iff.
  rewrite !N.leb_le, !N.ltb_lt.
  intros [[[[[[[[[_ Hy] _] Hm] _] Hd] Hh] Hn] Hs] Hu].
  assert (days_in_month (year t) (month t) <= 31)%N as Hdim.
  { unfold days_in_month.
    repeat match goal with
           | |- context [match ?x with _ => _ end] => destruct x
           end; lia. }
  lia.
Qed.

(** [fromisoformat] reads back what [isoformat] prints. *)
Lemma fromisoformat_isoformat (t : datetime) :
  valid_datetime t = true -> fromisoformat (isoformat t) = Some t.
Proof.
  intros Hvalid.
  destruct (valid_datetime_bounds t Hvalid)
    as (Hy & Hm & Hd & Hh & Hn & Hs & Hu).
  destruct t as [Y M D h n s us].
  cbn [year month day hour minute second microsecond] in *.
  unfold isoformat, fromisoformat.
  cbn [year month day hour minute second microsecond pad].
  destruct (us =? 0)%N eqn:Hus.
  - apply N.eqb_eq in Hus. subst us.
    cbn [list_ascii_of_string number].
    rewrite !digit_of_char by apply mod10_digit.
    cbn [mbind option_bind Ascii.eqb Bool.eqb andb].
    rewrite four_digits, !two_digits by assumption.
    rewrite Hvalid. reflexivity.
  - cbn [list_ascii_of_string number].
    rewrite !digit_of_char by apply mod10_digit.
    cbn [mbind option_bind Ascii.eqb Bool.eqb andb].
    rewrite four_digits, !two_digits, six_digits by assumption.
    rewrite Hvalid. reflexivity.
Qed.

Lemma isoformat_truthy (t : datetime) : truthy (PyStr (isoformat t)) = true.
Proof.
  unfold isoformat. cbn [pad truthy]. reflexivity.
Qed.

Lemma as_of_opt_str (o : option string) : as_opt_str (of_opt_str o) = Some o.
Proof. destruct o; reflexivity. Qed.

Lemma as_of_opt_float (o : option Q) : as_opt_float (of_opt_float o) = Some o.
Proof. destruct o; reflexivity. Qed.

Lemma HandRecord_roundtrip (fresh_id : string) (now : datetime)
    (h : HandRecord) :
  valid_datetime (timestamp h) = true ->
  HandRecord_from_dict fresh_id now (HandRecord_to_dict h) = Some h.
Proof.
  intros Hvalid. destruct h. cbn [timestamp] in Hvalid.
  unfold HandRecord_from_dict, HandRecord_to_dict.
  cbn [dict_get String.eqb Ascii.eqb Bool.eqb get_or hand_id session_id
       timestamp hero_cards board players hero_position small_blind
       big_blind actions result_bb winner went_to_showdown ai_action
       ai_reasoning ai_confidence].
  rewrite isoformat_truthy.
  cbn [as_str as_str_list as_float as_actions as_bool mbind option_bind].
  rewrite !as_of_opt_str, as_of_opt_float, (fromisoformat_isoformat _ Hvalid).
  reflexivity.
Qed.

Lemma PlayerStats_rebuilt (s : PlayerStats) :
  PlayerStats_from_dict (PlayerStats_to_dict s) = Some (without_tracking s).
Proof. destruct s. reflexivity. Qed.

(** C9 (as amended). For every PlayerStats value s,
    PlayerStats.from_dict(s.to_dict()) has the hands and the eight
    rates of s, and the tracking counters and per-position breakdown
    of a fresh record (zero and empty): it equals s exactly when the
    counters of s are zero and its breakdown is empty. For every
    HandRecord h (with a naive timestamp),
    HandRecord.from_dict(h.to_dict()) equals h: every field of the
    hand record round-trips. *)
Theorem serialization_roundtrip :
  (forall s : PlayerStats,
     PlayerStats_from_dict (PlayerStats_to_dict s) = Some (without_tracking s)
     /\ (PlayerStats_roundtrip s <-> without_tracking s = s))
  /\ (forall (fresh_id : string) (now : datetime) (h : HandRecord),
        valid_datetime (timestamp h) = true ->
        HandRecord_from_dict fresh_id now (HandRecord_to_dict h) = Some h).
Proof.
  split.
  - intros s. split; [apply PlayerStats_rebuilt|].
    unfold PlayerStats_roundtrip. rewrite PlayerStats_rebuilt.
    split; [intros Heq; injection Heq; auto | intros ->; reflexivity].
  - apply HandRecord_roundtrip.
Qed.

Lemma serialization_roundtrip_witness :
  valid_datetime (timestamp unlisted_hand) = true
  /\ HandRecord_from_dict "0f0f0f0f" noon (HandRecord_to_dict unlisted_hand)
     = Some unlisted_hand.
Proof.
  split; [reflexivity|].
  apply (proj2 serialization_roundtrip "0f0f0f0f" noon unlisted_hand).
  reflexivity.
Defined.

(** C9, counterexample. Statistics whose tracking counters are not
    zero come back from their dictionary with the counters at zero. *)
Lemma stats_counters_lost_counterexample :
  ~ PlayerStats_roundtrip stats_with_counters.
Proof.
  unfold PlayerStats_roundtrip. rewrite PlayerStats_rebuilt.
  intros Heq. injection Heq. discriminate.
Qed.

(** ** The scenarios of tests/test_stats.py *)

Example test_empty_hands :
  hands (calculate_stats "Player1" []) = 0%Z
  /\ vpip (calculate_stats "Player1" []) = 0%Q.
Proof. split; reflexivity. Qed.

Example test_vpip_calculation :
  (vpip (calculate_stats "Hero"
           [ hand_of ["Hero"; "Villain"] [act "Hero" "call" "preflop"];
             hand_of ["Hero"; "Villain"] [act "Hero" "fold" "preflop"] ])
   == 50)%Q.
Proof. reflexivity. Qed.

Example test_pfr_calculation :
  pfr (calculate_stats "Hero"
         [ hand_of ["Hero"] [act "Hero" "raise" "preflop"];
           hand_of ["Hero"] [act "Hero" "call" "preflop"];
           hand_of ["Hero"] [act "Hero" "fold" "preflop"] ])
  = percent 1 3.
Proof. reflexivity. Qed.

Example test_player_type_classification :
  get_player_type (player_with 50 22 3) = "TAG (Tight Aggressive)"
  /\ get_player_type (player_with 50 35 3) = "LAG (Loose Aggressive)"
  /\ get_player_type (player_with 5 30 2) = "Unknown".
Proof. repeat split. Qed.

Example test_isoformat :
  isoformat (mkDatetime 2024 3 9 7 5 1 42) = "2024-03-09T07:05:01.000042"
  /\ fromisoformat "2024-03-09T07:05:01" = Some (mkDatetime 2024 3 9 7 5 1 0).
Proof. split; reflexivity. Qed.

(** * Further properties of the three modules *)

(** ** calculate_stats as a whole *)

Lemma calculate_stats_wtsd p H :
  wtsd (calculate_stats p H) = _calculate_wtsd p (player_hands p H).
Proof. stats_field. Qed.

Lemma calculate_stats_wssd p H :
  wssd (calculate_stats p H) = _calculate_wssd p (player_hands p H).
Proof. stats_field. Qed.

(** The record that [calculate_stats] returns, in one expression: the
    early returns give what the general case gives on no hand. *)
Lemma calculate_stats_unfold (p : string) (H : list HandRecord) :
  calculate_stats p H
  = let ph := player_hands p H in
    set_rates (set_hands PlayerStats_default (Z.of_nat (length ph)))
      (_calculate_vpip p ph) (_calculate_pfr p ph) (_calculate_3bet p ph)
      (_calculate_fold_to_3bet p ph) (_calculate_af p ph)
      (_calculate_wtsd p ph) (_calculate_wssd p ph) (_calculate_cbet p ph).
Proof.
  unfold calculate_stats. destruct H as [|h t]; [reflexivity|].
  generalize (player_hands p (h :: t)); intros ph. cbv zeta.
  unfold set_hands at 1. simpl hands.
  destruct (Z.of_nat (length ph) =? 0)%Z eqn:E; [|reflexivity].
  rewrite (length_zero_nil _ E). reflexivity.
Qed.

Lemma player_hands_idem (p : string) (H : list HandRecord) :
  player_hands p (player_hands p H) = player_hands p H.
Proof.
  unfold player_hands. induction H as [|h t IH]; [reflexivity|].
  cbn [List.filter]. destruct (str_in p (players h)) eqn:E; [|exact IH].
  cbn [List.filter]. rewrite E, IH. reflexivity.
Qed.

(** X1. calculate_stats(p, H).hands is the number of hands of H whose
    players list contains p. *)
Theorem hands_counts_listed_hands (p : string) (H : list HandRecord) :
  hands (calculate_stats p H)
  = Z.of_nat (count_hands (fun h => str_in p (players h)) H).
Proof. rewrite calculate_stats_hands. reflexivity. Qed.

(** X2. The hands that do not list the player are ignored:
    calculate_stats on H and on the hands of H that list p give the
    same record; so the statistics of a player computed from a store's
    get_hands_by_player are those computed from all its closed hands. *)
Theorem calculate_stats_ignores_other_hands (p : string) :
  (forall H : list HandRecord,
     calculate_stats p (player_hands p H) = calculate_stats p H)
  /\ (forall self : HandHistory,
        calculate_stats p (get_hands_by_player self p)
        = calculate_stats p (_hands self)).
Proof.
  assert (forall H : list HandRecord,
            calculate_stats p (player_hands p H) = calculate_stats p H)
    as Hignore.
  { intros H. rewrite !calculate_stats_unfold. cbv zeta.
    rewrite player_hands_idem. reflexivity. }
  split; [exact Hignore|]. intros self. apply Hignore.
Qed.

Lemma no_listed_hand_default (p : string) (H : list HandRecord) :
  (forall h, In h H -> str_in p (players h) = false) ->
  calculate_stats p H = PlayerStats_default.
Proof.
  intros Hnone. rewrite calculate_stats_unfold. cbv zeta.
  assert (player_hands p H = []) as ->; [|reflexivity].
  unfold player_hands. induction H as [|h t IH]; [reflexivity|].
  cbn [List.filter]. rewrite (Hnone h (or_introl eq_refl)).
  apply IH. intros h' Hin. apply Hnone. right. exact Hin.
Qed.

(** X3. When no hand of H lists the player (in particular for an empty
    H), calculate_stats returns the record of a fresh PlayerStats():
    zero hands and every statistic zero. *)
Theorem calculate_stats_no_listed_hand (p : string) (H : list HandRecord) :
  (forall h, In h H -> str_in p (players h) = false) ->
  calculate_stats p H = PlayerStats_default.
Proof. apply no_listed_hand_default. Qed.

Lemma calculate_stats_no_listed_hand_witness :
  (forall h, In h [unlisted_hand] -> str_in "Hero" (players h) = false)
  /\ calculate_stats "Hero" [unlisted_hand] = PlayerStats_default.
Proof.
  assert (forall h, In h [unlisted_hand] -> str_in "Hero" (players h) = false)
    as Hnone by (intros h [<-|[]]; reflexivity).
  split; [exact Hnone|].
  apply (calculate_stats_no_listed_hand "Hero" [unlisted_hand] Hnone).
Defined.

(** ** The remaining rates *)

(** X4. calculate_stats(p, H).pfr is (k / n) * 100, where n is the
    number of hands listing p and k the number of those in which p has
    a preflop raise (an action without a street counts as preflop),
    and 0 when no hand lists p. The quotient is taken first, as the
    code computes it in floating point. *)
Theorem pfr_counts_preflop_raises (p : string) (H : list HandRecord) :
  pfr (calculate_stats p H)
  = percent (count_hands (raised_preflop p) (player_hands p H))
      (length (player_hands p H)).
Proof.
  rewrite calculate_stats_pfr. apply calculate_pfr_count.
Qed.

Lemma saw_flop_scan_existsb (p : string) (acts : list Action) :
  saw_flop_scan p acts
  = existsb (fun a => by_player p a && on_street "flop" a) acts.
Proof.
  induction acts as [|a rest IH]; [reflexivity|].
  cbn [saw_flop_scan existsb]. unfold by_player at 1, on_street at 1.
  destruct (get_eq (a_player a) p && get_eq (a_street a) "flop");
    [reflexivity | exact IH].
Qed.

Lemma calculate_wtsd_count (p : string) (hs : list HandRecord) :
  _calculate_wtsd p hs
  = percent
      (count_hands
         (fun h => saw_flop p h
                   && (went_to_showdown h && str_in p (players h))) hs)
      (count_hands (saw_flop p) hs).
Proof.
  unfold _calculate_wtsd.
  rewrite (fold_increments
             (fun h o c =>
                if saw_flop_scan p (actions h) then
                  (S o, if went_to_showdown h && str_in p (players h)
                        then S c else c)
                else (o, c))
             (saw_flop p)
             (fun h => saw_flop p h
                       && (went_to_showdown h && str_in p (players h)))).
  - reflexivity.
  - intros h o c. unfold saw_flop. rewrite saw_flop_scan_existsb.
    destruct (existsb _ (actions h)); cbn [andb].
    + destruct (went_to_showdown h && str_in p (players h));
        simpl; f_equal; lia.
    + simpl. f_equal; lia.
Qed.

Lemma calculate_wssd_count (p : string) (hs : list HandRecord) :
  _calculate_wssd p hs
  = percent
      (count_hands
         (fun h => (went_to_showdown h && str_in p (players h))
                   && won_by p h) hs)
      (count_hands (fun h => went_to_showdown h && str_in p (players h)) hs).
Proof.
  unfold _calculate_wssd.
  rewrite (fold_increments
             (fun h o c =>
                if went_to_showdown h && str_in p (players h) then
                  (S o, if get_eq (winner h) p then S c else c)
                else (o, c))
             (fun h => went_to_showdown h && str_in p (players h))
             (fun h => (went_to_showdown h && str_in p (players h))
                       && won_by p h)).
  - reflexivity.
  - intros h o c. unfold won_by.
    destruct (went_to_showdown h && str_in p (players h)); cbn [andb].
    + destruct (get_eq (winner h) p); simpl; f_equal; lia.
    + simpl. f_equal; lia.
Qed.

(** Two counting rules that agree on the hands listing [p] count the
    same among them. *)
Lemma count_listed_ext (p : string) (f g : HandRecord -> bool)
    (H : list HandRecord) :
  (forall h, str_in p (players h) = true -> f h = g h) ->
  count_hands f (player_hands p H) = count_hands g (player_hands p H).
Proof.
  intros Hfg. unfold count_hands, player_hands.
  induction H as [|h t IH]; [reflexivity|].
  cbn [List.filter]. destruct (str_in p (players h)) eqn:E; [|exact IH].
  cbn [List.filter]. rewrite (Hfg h E).
  destruct (g h); cbn [length]; congruence.
Qed.

(** X5. calculate_stats(p, H).wtsd counts, among the hands listing p,
    as an opportunity every hand in which p has a flop action, as an
    occurrence those whose went_to_showdown flag is set, and returns
    (occurrences / opportunities) * 100, the quotient first as the
    code computes it in floating point, 0 without opportunities. *)
Theorem wtsd_counts_flop_hands (p : string) (H : list HandRecord) :
  wtsd (calculate_stats p H)
  = percent
      (count_hands (fun h => saw_flop p h && went_to_showdown h)
         (player_hands p H))
      (count_hands (saw_flop p) (player_hands p H)).
Proof.
  rewrite calculate_stats_wtsd, calculate_wtsd_count.
  rewrite (count_listed_ext p
             (fun h => saw_flop p h
                       && (went_to_showdown h && str_in p (players h)))
             (fun h => saw_flop p h && went_to_showdown h)).
  - reflexivity.
  - intros h Hin. rewrite Hin, andb_true_r. reflexivity.
Qed.

(** X6. calculate_stats(p, H).wssd counts, among the hands listing p,
    as an opportunity every hand whose went_to_showdown flag is set
    (whether or not p acted in it), as an occurrence those whose
    winner is p, and returns (occurrences / opportunities) * 100, the
    quotient first as the code computes it in floating point, 0
    without opportunities. *)
Theorem wssd_counts_showdown_hands (p : string) (H : list HandRecord) :
  wssd (calculate_stats p H)
  = percent
      (count_hands (fun h => went_to_showdown h && won_by p h)
         (player_hands p H))
      (count_hands went_to_showdown (player_hands p H)).
Proof.
  rewrite calculate_stats_wssd, calculate_wssd_count.
  rewrite (count_listed_ext p
             (fun h => (went_to_showdown h && str_in p (players h))
                       && won_by p h)
             (fun h => went_to_showdown h && won_by p h)),
          (count_listed_ext p
             (fun h => went_to_showdown h && str_in p (players h))
             went_to_showdown).
  - reflexivity.
  - intros h Hin. rewrite Hin, andb_true_r. reflexivity.
  - intros h Hin. rewrite Hin, andb_true_r. reflexivity.
Qed.

(** ** Ranges *)

Lemma percent_range (c o : nat) :
  (c <= o)%nat -> (0 <= percent c o /\ percent c o <= 100)%Q.
Proof.
  intros Hco. split.
  - apply Qle_trans with (percent 0 o); [|apply percent_mono; lia].
    unfold percent. destruct (o =? 0)%nat; [apply Qle_refl|].
    unfold Qdiv. cbn [Z.of_nat]. rewrite !Qmult_0_l. apply Qle_refl.
  - apply Qle_trans with (percent o o); [apply percent_mono; exact Hco|].
    unfold percent. destruct (o =? 0)%nat eqn:Ho; [discriminate|].
    pose proof (inject_nat_pos o Ho) as Hpos.
    assert (inject_Z (Z.of_nat o) / inject_Z (Z.of_nat o) == 1)%Q as ->.
    { apply Qmult_inv_r. intros Hz. rewrite Hz in Hpos.
      exact (Qlt_irrefl 0%Q Hpos). }
    discriminate.
Qed.

Lemma aggression_factor_nonneg (b c : nat) : (0 <= aggression_factor b c)%Q.
Proof.
  assert (forall n, (0 <= inject_Z (Z.of_nat n))%Q) as Hnn
    by (intros n; change 0%Q with (inject_Z 0); rewrite <- Zle_Qle; lia).
  unfold aggression_factor. destruct (c =? 0)%nat eqn:Hc; [apply Hnn|].
  unfold Qdiv. apply Qmult_le_0_compat; [apply Hnn|].
  apply Qlt_le_weak, Qinv_lt_0_compat, inject_nat_pos, Hc.
Qed.

Lemma occurrences_le (occ opp : HandRecord -> bool) (hs : list HandRecord) :
  (forall h, occ h = true -> opp h = true) ->
  (0 <= percent (count_hands occ hs) (count_hands opp hs)
   /\ percent (count_hands occ hs) (count_hands opp hs) <= 100)%Q.
Proof. intros Himp. apply percent_range, count_hands_le, Himp. Qed.

(** X7. Every percentage that calculate_stats returns (vpip, pfr,
    three_bet, fold_to_3bet, wtsd, wssd, cbet) lies between 0 and 100,
    and af is never negative. *)
Theorem statistics_ranges (p : string) (H : list HandRecord) :
  let s := calculate_stats p H in
  ((0 <= vpip s /\ vpip s <= 100)
   /\ (0 <= pfr s /\ pfr s <= 100)
   /\ (0 <= three_bet s /\ three_bet s <= 100)
   /\ (0 <= fold_to_3bet s /\ fold_to_3bet s <= 100)
   /\ (0 <= wtsd s /\ wtsd s <= 100)
   /\ (0 <= wssd s /\ wssd s <= 100)
   /\ (0 <= cbet s /\ cbet s <= 100)
   /\ 0 <= af s)%Q.
Proof.
  cbv zeta.
  rewrite calculate_stats_vpip, calculate_stats_pfr,
    calculate_stats_three_bet, calculate_stats_fold_to_3bet,
    calculate_stats_wtsd, calculate_stats_wssd, calculate_stats_cbet,
    calculate_stats_af.
  rewrite calculate_vpip_count, calculate_pfr_count, calculate_3bet_count,
    calculate_fold_to_3bet_count, calculate_wtsd_count,
    calculate_wssd_count, calculate_cbet_count, calculate_af_factor.
  repeat split;
    try (apply percent_range, count_hands_bound);
    try apply aggression_factor_nonneg;
    try (apply occurrences_le; intros h Hocc;
         first [ apply andb_prop in Hocc; apply Hocc
               | unfold fold_to_3bet_occurrence, fold_to_3bet_opportunity in *;
                 destruct (facing_action p h); [reflexivity | discriminate]
               | unfold cbet_occurrence, cbet_opportunity in *;
                 apply andb_prop in Hocc as [-> Hc]; cbn [andb];
                 destruct (flop_action p h); [reflexivity | discriminate] ]).
Qed.

(** ** The order of the hands *)

Lemma count_hands_perm (f : HandRecord -> bool) (l l' : list HandRecord) :
  Permutation l l' -> count_hands f l = count_hands f l'.
Proof.
  unfold count_hands. intros Hperm.
  induction Hperm as [|x l l' _ IH|x y l|l l' l'' _ IH1 _ IH2].
  - reflexivity.
  - cbn [List.filter]. destruct (f x); cbn [length]; congruence.
  - cbn [List.filter]. destruct (f x), (f y); reflexivity.
  - congruence.
Qed.

Lemma player_hands_perm (p : string) (l l' : list HandRecord) :
  Permutation l l' -> Permutation (player_hands p l) (player_hands p l').
Proof.
  unfold player_hands. intros Hperm.
  induction Hperm as [|x l l' _ IH|x y l|l l' l'' _ IH1 _ IH2].
  - constructor.
  - cbn [List.filter]. destruct (str_in p (players x));
      [constructor|]; exact IH.
  - cbn [List.filter].
    destruct (str_in p (players x)), (str_in p (players y));
      try reflexivity. constructor.
  - etransitivity; eassumption.
Qed.

Lemma count_actions_perm (p : string) (ts : list string)
    (l l' : list HandRecord) :
  Permutation l l' -> count_actions p ts l = count_actions p ts l'.
Proof.
  unfold count_actions. intros Hperm.
  induction Hperm as [|x l l' _ IH|x y l|l l' l'' _ IH1 _ IH2].
  - reflexivity.
  - cbn [flat_map]. rewrite !List.filter_app, !List.length_app. congruence.
  - cbn [flat_map]. rewrite !List.filter_app, !List.length_app. lia.
  - congruence.
Qed.

(** X8. calculate_stats does not depend on the order of the hands: a
    reordered history gives the same record (no hand weighs more for
    being recent). *)
Theorem calculate_stats_order_independent (p : string)
    (H H' : list HandRecord) :
  Permutation H H' -> calculate_stats p H = calculate_stats p H'.
Proof.
  intros Hperm. apply (player_hands_perm p) in Hperm.
  rewrite !calculate_stats_unfold. cbv zeta.
  rewrite !calculate_vpip_count, !calculate_pfr_count, !calculate_3bet_count,
    !calculate_fold_to_3bet_count, !calculate_wtsd_count,
    !calculate_wssd_count, !calculate_cbet_count, !calculate_af_factor.
  rewrite (Permutation_length Hperm).
  repeat match goal with
         | |- context [count_hands ?f (player_hands p H)] =>
             rewrite (count_hands_perm f _ _ Hperm)
         | |- context [count_actions p ?ts (player_hands p H)] =>
             rewrite (count_actions_perm p ts _ _ Hperm)
         end.
  reflexivity.
Qed.

Lemma calculate_stats_order_independent_witness :
  Permutation [check_call_hand; called_3bet_hand]
    [called_3bet_hand; check_call_hand]
  /\ calculate_stats "Hero" [check_call_hand; called_3bet_hand]
     = calculate_stats "Hero" [called_3bet_hand; check_call_hand].
Proof.
  split; [apply perm_swap|].
  apply (calculate_stats_order_independent "Hero"). apply perm_swap.
Defined.

(** ** Letter case of the action types *)

Lemma lower_ascii_idem (c : ascii) : lower_ascii (lower_ascii c) = lower_ascii c.
Proof. destruct c as [[] [] [] [] [] [] [] []]; reflexivity. Qed.

Lemma lower_idem (s : string) : lower (lower s) = lower s.
Proof.
  induction s as [|c s IH]; [reflexivity|].
  cbn [lower]. rewrite lower_ascii_idem, IH. reflexivity.
Qed.

Lemma lower_fold_case (o : option string) :
  lower (get_or (lower <$> o) "") = lower (get_or o "").
Proof. destruct o; [apply lower_idem | reflexivity]. Qed.

Ltac fold_case_scan scan :=
  cbn [map scan]; cbv zeta;
  cbn [fold_case a_player a_street a_action_type];
  rewrite ?lower_fold_case;
  repeat match goal with IH : _ |- _ => rewrite !IH end;
  reflexivity.

Section FoldCase.
Variable p : string.

Lemma vpip_scan_fold_case (acts : list Action) :
  vpip_scan p (map fold_case acts) = vpip_scan p acts.
Proof.
  induction acts as [|a rest IH]; [reflexivity|]. fold_case_scan vpip_scan.
Qed.

Lemma pfr_scan_fold_case (acts : list Action) :
  pfr_scan p (map fold_case acts) = pfr_scan p acts.
Proof.
  induction acts as [|a rest IH]; [reflexivity|]. fold_case_scan pfr_scan.
Qed.

Lemma three_bet_scan_fold_case (acts : list Action) (rs pa : bool)
    (o c : nat) :
  three_bet_scan p (map fold_case acts) rs pa o c
  = three_bet_scan p acts rs pa o c.
Proof.
  revert rs pa o c. induction acts as [|a rest IH]; intros rs pa o c;
    [reflexivity|].
  fold_case_scan three_bet_scan.
Qed.

Lemma fold_to_3bet_scan_fold_case (acts : list Action) (pr f3 : bool)
    (o c : nat) :
  fold_to_3bet_scan p (map fold_case acts) pr f3 o c
  = fold_to_3bet_scan p acts pr f3 o c.
Proof.
  revert pr f3 o c. induction acts as [|a rest IH]; intros pr f3 o c;
    [reflexivity|].
  fold_case_scan fold_to_3bet_scan.
Qed.

Lemma af_step_fold_case (acts : list Action) (st : nat * nat) :
  fold_left (af_step p) (map fold_case acts) st
  = fold_left (af_step p) acts st.
Proof.
  revert st. induction acts as [|a rest IH]; intros st; [reflexivity|].
  cbn [map fold_left]. rewrite IH. f_equal.
  destruct st as [b c]. unfold af_step.
  cbn [fold_case a_player a_action_type]. rewrite lower_fold_case.
  reflexivity.
Qed.

Lemma saw_flop_scan_fold_case (acts : list Action) :
  saw_flop_scan p (map fold_case acts) = saw_flop_scan p acts.
Proof.
  induction acts as [|a rest IH]; [reflexivity|].
  fold_case_scan saw_flop_scan.
Qed.

Lemma aggressor_scan_fold_case (acts : list Action) (b : bool) :
  aggressor_scan p (map fold_case acts) b = aggressor_scan p acts b.
Proof.
  revert b. induction acts as [|a rest IH]; intros b; [reflexivity|].
  fold_case_scan aggressor_scan.
Qed.

Lemma cbet_flop_scan_fold_case (acts : list Action) (o c : nat) :
  cbet_flop_scan p (map fold_case acts) o c = cbet_flop_scan p acts o c.
Proof.
  induction acts as [|a rest IH]; [reflexivity|].
  fold_case_scan cbet_flop_scan.
Qed.
End FoldCase.

(** A loop over hands sees a mapped list as the list itself when its
    body does not tell a hand from its image. *)
Lemma fold_left_map_same {S} (body : S -> HandRecord -> S)
    (g : HandRecord -> HandRecord) (hs : list HandRecord) (st : S) :
  (forall st h, body st (g h) = body st h) ->
  fold_left body (map g hs) st = fold_left body hs st.
Proof.
  intros Hsame. revert st. induction hs as [|h t IH]; intros st;
    [reflexivity|].
  cbn [map fold_left]. rewrite Hsame. apply IH.
Qed.

Lemma player_hands_with_actions (p : string)
    (f : list Action -> list Action) (H : list HandRecord) :
  player_hands p (map (with_actions f) H)
  = map (with_actions f) (player_hands p H).
Proof.
  unfold player_hands. induction H as [|h t IH]; [reflexivity|].
  cbn [map List.filter with_actions players].
  destruct (str_in p (players h)); cbn [map]; rewrite IH; reflexivity.
Qed.

(** X9. The letter case of the action types does not matter: writing
    every action type of every hand in lower case leaves the record of
    calculate_stats unchanged. *)
Theorem calculate_stats_case_insensitive (p : string) (H : list HandRecord) :
  calculate_stats p (map (with_actions (map fold_case)) H)
  = calculate_stats p H.
Proof.
  rewrite !calculate_stats_unfold. cbv zeta.
  rewrite player_hands_with_actions, length_map.
  generalize (player_hands p H). intros ph.
  unfold _calculate_vpip, _calculate_pfr, _calculate_3bet,
    _calculate_fold_to_3bet, _calculate_af, af_counts, _calculate_wtsd,
    _calculate_wssd, _calculate_cbet.
  rewrite !fold_left_map_same; [reflexivity|..];
    intros [o c] h; cbn [with_actions actions players went_to_showdown winner];
    rewrite ?vpip_scan_fold_case, ?pfr_scan_fold_case,
      ?three_bet_scan_fold_case, ?fold_to_3bet_scan_fold_case,
      ?af_step_fold_case, ?saw_flop_scan_fold_case,
      ?aggressor_scan_fold_case, ?cbet_flop_scan_fold_case;
    reflexivity.
Qed.

(** X10. The dictionary of get_stats_dict reads back as the record it
    was made from: calculate_stats leaves the tracking counters and
    the per-position breakdown at their defaults, so nothing is lost. *)
Theorem get_stats_dict_roundtrip (p : string) (H : list HandRecord) :
  PlayerStats_from_dict (get_stats_dict p H) = Some (calculate_stats p H).
Proof.
  unfold get_stats_dict. rewrite PlayerStats_rebuilt.
  rewrite calculate_stats_unfold. reflexivity.
Qed.

(** ** Queries on the store *)

(** X11. For a count of at least 1, get_recent_hands returns the last
    count closed hands in their order, and all of them when the store
    holds fewer. *)
Theorem get_recent_hands_last (self : HandHistory) (count : Z) :
  (1 <= count)%Z ->
  get_recent_hands self count
  = drop (length (_hands self) - Z.to_nat count) (_hands self)
  /\ length (get_recent_hands self count)
     = Nat.min (Z.to_nat count) (length (_hands self)).
Proof.
  intros Hc.
  assert (get_recent_hands self count
          = drop (length (_hands self) - Z.to_nat count) (_hands self))
    as Heq.
  { unfold get_recent_hands. destruct (_hands self) as [|h t] eqn:Hhs;
      [reflexivity|].
    apply slice_from_last, Hc. }
  split; [exact Heq|]. rewrite Heq, length_drop. lia.
Qed.

Lemma get_recent_hands_last_witness :
  (1 <= 2)%Z
  /\ get_recent_hands
       (mkHandHistory [check_call_hand; limp_reraise_hand; called_3bet_hand]
          1000 None) 2
     = [limp_reraise_hand; called_3bet_hand].
Proof.
  split; [lia|].
  apply (get_recent_hands_last
           (mkHandHistory
              [check_call_hand; limp_reraise_hand; called_3bet_hand]
              1000 None) 2).
  lia.
Defined.

(** X12. For a count of 0 get_recent_hands returns every closed hand,
    not none; for a negative count it drops that many of the oldest
    hands. *)
Theorem get_recent_hands_nonpositive (self : HandHistory) (count : Z) :
  (count <= 0)%Z ->
  get_recent_hands self count = drop (Z.to_nat (- count)) (_hands self).
Proof.
  intros Hc. unfold get_recent_hands.
  destruct (_hands self) as [|h t] eqn:Hhs.
  - rewrite drop_nil. reflexivity.
  - unfold slice_from.
    destruct (- count <? 0)%Z eqn:Hneg; [apply Z.ltb_lt in Hneg; lia|].
    destruct (Z.min_spec (- count) (Z.of_nat (length (h :: t))))
      as [[Hlt ->]|[Hge ->]]; [reflexivity|].
    rewrite Nat2Z.id, !drop_ge by lia. reflexivity.
Qed.

Lemma get_recent_hands_nonpositive_witness :
  (0 <= 0)%Z
  /\ get_recent_hands
       (mkHandHistory [check_call_hand; limp_reraise_hand] 1000 None) 0
     = [check_call_hand; limp_reraise_hand].
Proof.
  split; [lia|].
  apply (get_recent_hands_nonpositive
           (mkHandHistory [check_call_hand; limp_reraise_hand] 1000 None) 0).
  lia.
Defined.

(** ** The store under any sequence of calls *)

Lemma call_keeps_max (self : HandHistory) (c : StoreCall) :
  _max_hands (call self c) = _max_hands self.
Proof.
  destruct c; cbn [call]; try reflexivity.
  unfold end_hand. destruct (_current_hand self); reflexivity.
Qed.

Lemma call_not_end (self : HandHistory) (c : StoreCall) :
  is_end c = false -> _hands (call self c) = _hands self.
Proof. destruct c; [reflexivity | reflexivity | discriminate]. Qed.

Lemma call_end_length (self : HandHistory) (c : StoreCall) :
  (1 <= _max_hands self)%Z ->
  (Z.of_nat (length (_hands self)) <= _max_hands self)%Z ->
  (Z.of_nat (length (_hands (call self c))) <= _max_hands self)%Z
  /\ (length (_hands (call self c))
      <= length (_hands self) + b2n (is_end c))%nat.
Proof.
  intros Hm Hlen. destruct c as [fresh_id now sid|edit|r w];
    cbn [call is_end b2n].
  - cbn [start_new_hand fst _hands]. lia.
  - cbn [write_current _hands]. lia.
  - unfold end_hand. destruct (_current_hand self) as [cur|];
      [|lia].
    cbn [_hands].
    destruct (_max_hands self
              <? Z.of_nat (length (_hands self ++ [set_result cur r w])))%Z
      eqn:Hfull.
    + rewrite slice_from_last by exact Hm.
      rewrite length_drop, length_app. cbn [length]. lia.
    + apply Z.ltb_ge in Hfull. rewrite length_app in *. cbn [length] in *.
      lia.
Qed.

(** X13. In a store built with max_hands >= 1, whatever sequence of
    start_new_hand, writes to the open hand and end_hand is made, the
    closed list never holds more than max_hands hands, nor more hands
    than end_hand was called. *)
Theorem closed_hands_bounded (max_hands : Z) (cs : list StoreCall) :
  (1 <= max_hands)%Z ->
  let self := calls_on (HandHistory_init max_hands) cs in
  (Z.of_nat (length (_hands self)) <= max_hands)%Z
  /\ (length (_hands self) <= length (List.filter is_end cs))%nat.
Proof.
  intros Hm. cbv zeta.
  enough (forall self,
            _max_hands self = max_hands ->
            (Z.of_nat (length (_hands self)) <= max_hands)%Z ->
            (Z.of_nat (length (_hands (calls_on self cs))) <= max_hands)%Z
            /\ (length (_hands (calls_on self cs))
                <= length (_hands self) + length (List.filter is_end cs))%nat)
    as Hgen.
  { destruct (Hgen (HandHistory_init max_hands) eq_refl) as [H1 H2];
      [cbn; lia|]. split; [exact H1 | exact H2]. }
  induction cs as [|c cs IH]; intros self Hmax Hlen.
  - cbn [calls_on fold_left List.filter length]. lia.
  - unfold calls_on in *. cbn [fold_left List.filter].
    destruct (call_end_length self c) as [Hb Hl]; [lia | lia |].
    destruct (IH (call self c)) as [IH1 IH2];
      [rewrite call_keeps_max; exact Hmax | lia |].
    split; [exact IH1|].
    destruct (is_end c); cbn [b2n length] in *; lia.
Qed.

Lemma closed_hands_bounded_witness :
  (1 <= 1)%Z
  /\ (Z.of_nat
        (length
           (_hands
              (calls_on (HandHistory_init 1)
                 [CallStart "a1b2c3d4" noon None; CallEnd 10 None;
                  CallStart "e5f6a7b8" noon None; CallEnd (-4) None])))
      <= 1)%Z.
Proof.
  split; [lia|].
  apply (closed_hands_bounded 1
           [CallStart "a1b2c3d4" noon None; CallEnd 10 None;
            CallStart "e5f6a7b8" noon None; CallEnd (-4) None]).
  lia.
Defined.

Lemma calls_without_end (ws : list StoreCall) (self : HandHistory) :
  forallb (fun c => negb (is_end c)) ws = true ->
  _hands (calls_on self ws) = _hands self
  /\ _max_hands (calls_on self ws) = _max_hands self.
Proof.
  revert self. induction ws as [|c ws IH]; intros self Hws; [split; reflexivity|].
  cbn [forallb] in Hws. apply andb_prop in Hws as [Hc Hws].
  apply negb_true_iff in Hc.
  unfold calls_on in *. cbn [fold_left].
  destruct (IH (call self c) Hws) as [-> ->].
  split; [apply call_not_end, Hc | apply call_keeps_max].
Qed.

(** X14. start_new_hand drops a hand left open: whatever was started
    and written since the last end_hand is lost when a new hand is
    started, and the store goes on as if those calls had not been
    made. *)
Theorem start_new_hand_discards_open_hand (self : HandHistory)
    (ws rest : list StoreCall) (fresh_id : string) (now : datetime)
    (session_id : option string) :
  forallb (fun c => negb (is_end c)) ws = true ->
  calls_on self (ws ++ CallStart fresh_id now session_id :: rest)
  = calls_on self (CallStart fresh_id now session_id :: rest).
Proof.
  intros Hws. unfold calls_on. rewrite fold_left_app. cbn [fold_left].
  f_equal. cbn [call start_new_hand fst].
  destruct (calls_without_end ws self Hws) as [Hh Hm].
  unfold calls_on in Hh, Hm. rewrite Hh, Hm. reflexivity.
Qed.

Lemma start_new_hand_discards_open_hand_witness :
  forallb (fun c => negb (is_end c))
    [CallStart "a1b2c3d4" noon None;
     CallWrite (fun h => add_action h "Hero" "raise" None "preflop"
                           "2024-03-09T12:00:01")] = true
  /\ _hands
       (calls_on (HandHistory_init 1000)
          ([CallStart "a1b2c3d4" noon None;
            CallWrite (fun h => add_action h "Hero" "raise" None "preflop"
                                  "2024-03-09T12:00:01")]
           ++ CallStart "e5f6a7b8" noon None :: [CallEnd 10 None]))
     = [set_result (HandRecord_new "e5f6a7b8" noon None) 10 None].
Proof.
  split; [reflexivity|].
  rewrite (start_new_hand_discards_open_hand (HandHistory_init 1000)
             [CallStart "a1b2c3d4" noon None;
              CallWrite (fun h => add_action h "Hero" "raise" None "preflop"
                                    "2024-03-09T12:00:01")]
             [CallEnd 10 None] "e5f6a7b8" noon None eq_refl).
  reflexivity.
Defined.

(** ** Totals of the store *)

Lemma results_of_finalized (k : nat) (xs : list HandPlay) :
  map result_bb (drop k (map finalized xs)) = map play_result (drop k xs).
Proof.
  revert k. induction xs as [|x xs IH]; intros k.
  - destruct k; reflexivity.
  - destruct k as [|k]; cbn [skipn map].
    + f_equal. apply (IH 0%nat).
    + apply IH.
Qed.

Lemma totals_after_plays (max_hands : Z) (xs : list HandPlay) :
  (1 <= max_hands)%Z ->
  let self := play_hands (HandHistory_init max_hands) xs in
  get_hands_count self = Z.min (Z.of_nat (length xs)) max_hands
  /\ get_total_profit_bb self
     = fold_left Qplus
         (map play_result (drop (length xs - Z.to_nat max_hands) xs)) 0%Q.
Proof.
  intros Hm. cbv zeta.
  destruct (capacity_law max_hands xs Hm) as (Hhs & _ & _).
  cbv zeta in Hhs. unfold get_hands_count, get_total_profit_bb.
  rewrite Hhs, results_of_finalized. split; [|reflexivity].
  rewrite length_drop, length_map. lia.
Qed.

(** X15. After any number of hands played through a fresh store with
    max_hands >= 1, get_hands_count is the number of hands played,
    capped at max_hands, and get_total_profit_bb is the sum of the
    results of the hands still held (the last max_hands ones): the
    result of an evicted hand leaves the total. *)
Theorem store_totals (max_hands : Z) (xs : list HandPlay) :
  (1 <= max_hands)%Z ->
  let self := play_hands (HandHistory_init max_hands) xs in
  get_hands_count self = Z.min (Z.of_nat (length xs)) max_hands
  /\ get_total_profit_bb self
     = fold_left Qplus
         (map play_result (drop (length xs - Z.to_nat max_hands) xs)) 0%Q.
Proof. apply totals_after_plays. Qed.

Lemma store_totals_witness :
  (1 <= 1000)%Z
  /\ get_total_profit_bb
       (play_hands (HandHistory_init 1000)
          [mkHandPlay "a1b2c3d4" noon None (fun h => h) 10 None;
           mkHandPlay "e5f6a7b8" noon None (fun h => h) (-4) None])
     = (0 + 10 + -4)%Q.
Proof.
  split; [lia|].
  apply (store_totals 1000
           [mkHandPlay "a1b2c3d4" noon None (fun h => h) 10 None;
            mkHandPlay "e5f6a7b8" noon None (fun h => h) (-4) None]).
  lia.
Defined.

(** ** Saving and loading the store *)

Lemma from_dicts_to_dicts (fresh : nat -> string * datetime) (i : nat)
    (hs : list HandRecord) :
  forallb (fun h => valid_datetime (timestamp h)) hs = true ->
  from_dicts fresh i (map HandRecord_to_dict hs) = Some hs.
Proof.
  revert i. induction hs as [|h hs IH]; intros i Hvalid; [reflexivity|].
  cbn [forallb] in Hvalid. apply andb_prop in Hvalid as [Hh Hhs].
  cbn [map from_dicts]. rewrite (HandRecord_roundtrip _ _ h Hh).
  cbn [mbind option_bind]. rewrite (IH (S i) Hhs). reflexivity.
Qed.

(** X16. A store whose closed hands were saved with to_list gets them
    back from load_from_list, field for field and in the same order
    (the timestamps being naive datetimes). *)
Theorem load_from_list_to_list (self : HandHistory)
    (fresh : nat -> string * datetime) :
  forallb (fun h => valid_datetime (timestamp h)) (_hands self) = true ->
  load_from_list self fresh (HandHistory_to_list self) = Some self.
Proof.
  intros Hvalid. unfold load_from_list, HandHistory_to_list.
  rewrite (from_dicts_to_dicts fresh 0 _ Hvalid). cbn [mbind option_bind].
  destruct self; reflexivity.
Qed.

Lemma load_from_list_to_list_witness :
  forallb (fun h => valid_datetime (timestamp h))
    (_hands (mkHandHistory [check_call_hand; unlisted_hand] 1000 None))
  = true
  /\ load_from_list (mkHandHistory [check_call_hand; unlisted_hand] 1000 None)
       (fun _ => ("0f0f0f0f", noon))
       (HandHistory_to_list
          (mkHandHistory [check_call_hand; unlisted_hand] 1000 None))
     = Some (mkHandHistory [check_call_hand; unlisted_hand] 1000 None).
Proof.
  split; [reflexivity|].
  apply (load_from_list_to_list
           (mkHandHistory [check_call_hand; unlisted_hand] 1000 None)
           (fun _ => ("0f0f0f0f", noon))).
  reflexivity.
Defined.

Lemma from_dicts_length (fresh : nat -> string * datetime) (i : nat)
    (data : list pydict) (hs : list HandRecord) :
  from_dicts fresh i data = Some hs -> length hs = length data.
Proof.
  revert i hs. induction data as [|d data IH]; intros i hs Hload.
  - injection Hload as <-. reflexivity.
  - cbn [from_dicts] in Hload.
    destruct (HandRecord_from_dict _ _ d) as [h|]; [|discriminate].
    cbn [mbind option_bind] in Hload.
    destruct (from_dicts fresh (S i) data) as [hs'|] eqn:Hrest;
      [|discriminate].
    injection Hload as <-. cbn [length]. f_equal. exact (IH _ _ Hrest).
Qed.

(** X17. load_from_list does not apply the capacity bound: when it
    succeeds the store holds one hand per dictionary loaded, however
    many that is, and its max_hands and open hand are as before. *)
Theorem load_from_list_ignores_capacity (self self' : HandHistory)
    (fresh : nat -> string * datetime) (data : list pydict) :
  load_from_list self fresh data = Some self' ->
  length (_hands self') = length data
  /\ _max_hands self' = _max_hands self
  /\ _current_hand self' = _current_hand self.
Proof.
  unfold load_from_list. intros Hload.
  destruct (from_dicts fresh 0 data) as [hs|] eqn:Hhs; [|discriminate].
  injection Hload as <-. cbn [_hands _max_hands _current_hand].
  repeat split. exact (from_dicts_length _ _ _ _ Hhs).
Qed.

Lemma load_from_list_ignores_capacity_witness :
  load_from_list (HandHistory_init 1) (fun _ => ("0f0f0f0f", noon))
    [HandRecord_to_dict check_call_hand; HandRecord_to_dict unlisted_hand]
  = Some (mkHandHistory [check_call_hand; unlisted_hand] 1 None)
  /\ length (_hands (mkHandHistory [check_call_hand; unlisted_hand] 1 None))
     = 2%nat.
Proof.
  assert (load_from_list (HandHistory_init 1) (fun _ => ("0f0f0f0f", noon))
            [HandRecord_to_dict check_call_hand;
             HandRecord_to_dict unlisted_hand]
          = Some (mkHandHistory [check_call_hand; unlisted_hand] 1 None))
    as Hload by reflexivity.
  split; [exact Hload|].
  apply (load_from_list_ignores_capacity _ _ _ _ Hload).
Defined.

(** ** Records filled by add_action *)

Lemma add_actions_players (h : HandRecord)
    (args : list (string * string * option Q * string * string)) :
  players (add_actions h args) = players h.
Proof.
  unfold add_actions. revert h.
  induction args as [|[[[[pl ty] am] st] ts] args IH]; intros h;
    [reflexivity|].
  cbn [fold_left]. rewrite IH. reflexivity.
Qed.

Lemma add_actions_actions (h : HandRecord)
    (args : list (string * string * option Q * string * string)) :
  actions (add_actions h args)
  = actions h
    ++ map (fun '(pl, ty, am, st, ts) =>
              mkAction (Some pl) (Some ty) am (Some st) (Some ts)) args.
Proof.
  unfold add_actions. revert h.
  induction args as [|[[[[pl ty] am] st] ts] args IH]; intros h.
  - cbn [fold_left map]. rewrite app_nil_r. reflexivity.
  - cbn [fold_left map]. rewrite IH. cbn [add_action actions].
    rewrite <- app_assoc. reflexivity.
Qed.

(** X18. add_action never touches the players of a record: a record
    made by HandRecord() and filled by add_action alone lists nobody,
    so calculate_stats over such records returns the all-zero record
    for every player, whatever the actions are. *)
Theorem add_action_records_count_for_nobody (p : string)
    (bs : list (string * datetime * option string
                * list (string * string * option Q * string * string))) :
  calculate_stats p (map built_by_add_action bs) = PlayerStats_default.
Proof.
  apply no_listed_hand_default. intros h Hin.
  apply in_map_iff in Hin as [[[[id now] sid] args] [<- _]].
  unfold built_by_add_action. rewrite add_actions_players. reflexivity.
Qed.

(** add_action appends: after any calls of add_action the actions of
    the record are its earlier actions followed by one dictionary per
    call, in the order of the calls, each with its player and
    action_type keys. *)
Lemma add_action_appends_in_order (h : HandRecord)
    (args : list (string * string * option Q * string * string)) :
  actions (add_actions h args)
  = actions h
    ++ map (fun '(pl, ty, am, st, ts) =>
              mkAction (Some pl) (Some ty) am (Some st) (Some ts)) args
  /\ forallb (fun a => negb (lacks_key a))
       (drop (length (actions h)) (actions (add_actions h args))) = true.
Proof.
  split; [apply add_actions_actions|].
  rewrite add_actions_actions, drop_app_length.
  induction args as [|[[[[pl ty] am] st] ts] args IH]; [reflexivity|].
  cbn [map forallb]. exact IH.
Qed.

(** ** Summaries *)

(** [s[:n]] is the longest prefix of [s] of at most [n] characters. *)
Lemma substring_split (n : nat) (s : string) :
  exists rest,
    s = (substring 0 n s ++ rest)%string
    /\ String.length (substring 0 n s) = Nat.min n (String.length s).
Proof.
  revert s. induction n as [|n IH]; intros s.
  - exists s. destruct s; split; reflexivity.
  - destruct s as [|c s].
    + exists "". split; reflexivity.
    + destruct (IH s) as (rest & Hsplit & Hlen). exists rest.
      split.
      * change (String c s
                = String c (substring 0 n s ++ rest)%string).
        f_equal. exact Hsplit.
      * change (S (String.length (substring 0 n s))
                = S (Nat.min n (String.length s))).
        f_equal. exact Hlen.
Qed.

(** X19. When to_summary returns, its action_summary is the text of
    get_action_sequence cut after 100 characters: the text is the
    summary followed by a remainder, the summary has min(100, length
    of the text) characters (so a longer text keeps exactly its first
    100 characters and a shorter one is kept whole); hero_cards and
    board are the cards joined by spaces, the board reading "No board"
    when it is empty; position and result_bb are those of the hand.
    Characters are those of an ASCII text. *)
Theorem to_summary_truncates (render : Q -> string) (h : HandRecord)
    (s : Summary) :
  to_summary render h = Some s ->
  exists sequence rest,
    get_action_sequence render h = Some sequence
    /\ sequence = (sum_action_summary s ++ rest)%string
    /\ String.length (sum_action_summary s)
       = Nat.min 100 (String.length sequence)
    /\ sum_hero_cards s = String.concat " " (hero_cards h)
    /\ sum_board s
       = match board h with
         | [] => "No board"
         | _ :: _ => String.concat " " (board h)
         end
    /\ sum_position s = hero_position h
    /\ sum_result_bb s = result_bb h.
Proof.
  unfold to_summary. cbv zeta.
  destruct (get_action_sequence render h) as [sequence|]; [|discriminate].
  cbn [mbind option_bind]. intros Hs. injection Hs as <-.
  destruct (substring_split 100 sequence) as (rest & Hsplit & Hlen).
  exists sequence, rest.
  cbn [sum_action_summary sum_board sum_hero_cards sum_position
       sum_result_bb].
  repeat split; assumption.
Qed.

Lemma to_summary_truncates_witness :
  to_summary (fun _ => "2.0") raising_war_hand
  = Some (mkSummary "" "No board" None 0
            "Hero: raise -> Villain: raise -> Hero: raise -> Villain: raise -> Hero: raise -> Villain: raise -> H")
  /\ String.length
       "Hero: raise -> Villain: raise -> Hero: raise -> Villain: raise -> Hero: raise -> Villain: raise -> H"
     = 100%nat.
Proof.
  assert (to_summary (fun _ => "2.0") raising_war_hand
          = Some (mkSummary "" "No board" None 0
                    "Hero: raise -> Villain: raise -> Hero: raise -> Villain: raise -> Hero: raise -> Villain: raise -> H"))
    as Hs by reflexivity.
  split; [exact Hs|].
  destruct (to_summary_truncates _ _ _ Hs)
    as (sequence & rest & Hseq & _ & Hlen & _).
  injection Hseq as <-. exact Hlen.
Defined.

Lemma action_parts_none (render : Q -> string) (acts : list Action) :
  action_parts render acts = None <-> existsb lacks_key acts = true.
Proof.
  induction acts as [|a rest IH]; [split; discriminate|].
  cbn [action_parts existsb]. unfold action_str, lacks_key at 1.
  destruct (a_player a) as [pl|]; cbn [mbind option_bind orb];
    [|split; reflexivity].
  destruct (a_action_type a) as [ty|]; cbn [mbind option_bind orb];
    [|split; reflexivity].
  destruct (action_parts render rest) as [parts|]; cbn [mbind option_bind].
  - split; [discriminate|]. intros Hex. apply IH in Hex. discriminate.
  - split; [intros _; apply IH; reflexivity | reflexivity].
Qed.

(** X20. get_action_sequence and to_summary raise KeyError exactly
    when some action of the hand has no player or no action_type key
    (the amount and street keys may be missing); the statistics, which
    read actions with get, have no such failure. *)
Theorem summary_fails_on_missing_key (render : Q -> string)
    (h : HandRecord) :
  (get_action_sequence render h = None
   <-> existsb lacks_key (actions h) = true)
  /\ (to_summary render h = None <-> existsb lacks_key (actions h) = true).
Proof.
  assert (get_action_sequence render h = None
          <-> existsb lacks_key (actions h) = true) as Hseq.
  { rewrite <- (action_parts_none render). unfold get_action_sequence.
    destruct (action_parts render (actions h)); cbn [mbind option_bind];
      split; intros; congruence. }
  split; [exact Hseq|]. rewrite <- Hseq. unfold to_summary. cbv zeta.
  destruct (get_action_sequence render h); cbn [mbind option_bind];
    split; intros; congruence.
Qed.

(** X21. The capacity law for max_hands >= 1: after any number of
    hands played through a fresh store, the closed hands are the last
    max_hands finalized records in the order they were played, never
    more than max_hands of them, and exactly max_hands once more than
    max_hands hands were played. *)
Theorem capacity_law_positive (max_hands : Z) (xs : list HandPlay) :
  (1 <= max_hands)%Z ->
  let self := play_hands (HandHistory_init max_hands) xs in
  _hands self = drop (length xs - Z.to_nat max_hands) (map finalized xs)
  /\ (Z.of_nat (length (_hands self)) <= max_hands)%Z
  /\ ((max_hands < Z.of_nat (length xs))%Z ->
      Z.of_nat (length (_hands self)) = max_hands).
Proof. apply capacity_law. Qed.

Lemma capacity_law_positive_witness :
  (1 <= 1)%Z
  /\ _hands
       (play_hands (HandHistory_init 1)
          [mkHandPlay "a1b2c3d4" noon None (fun h => h) 10 None;
           mkHandPlay "e5f6a7b8" noon None (fun h => h) (-4) None])
     = [set_result (HandRecord_new "e5f6a7b8" noon None) (-4) None].
Proof.
  split; [lia|].
  apply (capacity_law_positive 1
           [mkHandPlay "a1b2c3d4" noon None (fun h => h) 10 None;
            mkHandPlay "e5f6a7b8" noon None (fun h => h) (-4) None]).
  lia.
Defined.

(** ** The player *)

Lemma Qlt_bool_trans_lt (x a b : Q) :
  (a <= b)%Q -> Qlt_bool x a = true -> Qlt_bool x b = true.
Proof.
  intros Hab Hx. apply Qlt_bool_iff. apply Qlt_bool_iff in Hx.
  exact (Qlt_le_trans _ _ _ Hx Hab).
Qed.

Lemma Qlt_bool_trans_gt (x a b : Q) :
  (b <= a)%Q -> Qlt_bool a x = true -> Qlt_bool b x = true.
Proof.
  intros Hab Hx. apply Qlt_bool_iff. apply Qlt_bool_iff in Hx.
  exact (Qle_lt_trans _ _ _ Hab Hx).
Qed.

Lemma Qlt_bool_exclusive (x a b : Q) :
  (a <= b)%Q -> Qlt_bool x a = true -> Qlt_bool b x = false.
Proof.
  intros Hab Hx. apply Qlt_bool_false. apply Qlt_bool_iff in Hx.
  intros Hbx. apply (Qlt_irrefl x).
  exact (Qlt_trans _ _ _ (Qlt_le_trans _ _ _ Hx Hab) Hbx).
Qed.

(** X22. The strict flags and the coarse type of a player agree: a
    tight player is not loose and is typed TAG or TP, a loose one is
    not tight and is typed LAG or LP, an aggressive one is not passive
    and is typed TAG or LAG, a passive one is not aggressive and is
    typed TP or LP; and the type is "Unknown" exactly when the player
    has fewer than 20 hands. *)
Theorem flags_agree_with_type (self : Player) :
  (is_tight self = true ->
     is_loose self = false
     /\ (get_player_type self = "TAG (Tight Aggressive)"
         \/ get_player_type self = "TP (Tight Passive)"))
  /\ (is_loose self = true ->
     is_tight self = false
     /\ (get_player_type self = "LAG (Loose Aggressive)"
         \/ get_player_type self = "LP (Loose Passive)"))
  /\ (is_aggressive self = true ->
     is_passive self = false
     /\ (get_player_type self = "TAG (Tight Aggressive)"
         \/ get_player_type self = "LAG (Loose Aggressive)"))
  /\ (is_passive self = true ->
     is_aggressive self = false
     /\ (get_player_type self = "TP (Tight Passive)"
         \/ get_player_type self = "LP (Loose Passive)"))
  /\ (get_player_type self = "Unknown" <-> (hands (stats self) < 20)%Z).
Proof.
  unfold is_tight, is_loose, is_aggressive, is_passive, get_player_type.
  destruct (hands (stats self) <? 20)%Z eqn:Hfew.
  - assert ((20 <=? hands (stats self))%Z = false) as ->
      by (apply Z.leb_gt, Z.ltb_lt, Hfew).
    rewrite !andb_false_r. apply Z.ltb_lt in Hfew.
    repeat split; try discriminate; auto.
  - assert ((20 <=? hands (stats self))%Z = true) as ->
      by (apply Z.leb_le, Z.ltb_ge, Hfew).
    rewrite !andb_true_r. apply Z.ltb_ge in Hfew. cbv zeta.
    split; [|split; [|split; [|split]]].
    + intros Ht.
      rewrite (Qlt_bool_exclusive _ 20 35 ltac:(discriminate) Ht).
      rewrite (Qlt_bool_trans_lt _ 20 25 ltac:(discriminate) Ht).
      split; [reflexivity|].
      destruct (Qlt_bool 2 (af (stats self))); [left | right]; reflexivity.
    + intros Hl.
      assert (Qlt_bool (vpip (stats self)) 20 = false) as Hnt.
      { destruct (Qlt_bool (vpip (stats self)) 20) eqn:Ht; [|reflexivity].
        rewrite (Qlt_bool_exclusive _ 20 35 ltac:(discriminate) Ht) in Hl.
        discriminate. }
      assert (Qlt_bool (vpip (stats self)) 25 = false) as ->.
      { destruct (Qlt_bool (vpip (stats self)) 25) eqn:Ht; [|reflexivity].
        rewrite (Qlt_bool_exclusive _ 25 35 ltac:(discriminate) Ht) in Hl.
        discriminate. }
      split; [exact Hnt|].
      destruct (Qlt_bool 2 (af (stats self))); [left | right]; reflexivity.
    + intros Ha.
      assert (Qlt_bool (af (stats self)) (3 # 2) = false) as ->.
      { destruct (Qlt_bool (af (stats self)) (3 # 2)) eqn:Hp; [|reflexivity].
        rewrite (Qlt_bool_exclusive _ (3 # 2) (5 # 2) ltac:(discriminate) Hp)
          in Ha. discriminate. }
      rewrite (Qlt_bool_trans_gt _ (5 # 2) 2 ltac:(discriminate) Ha).
      split; [reflexivity|].
      destruct (Qlt_bool (vpip (stats self)) 25); [left | right]; reflexivity.
    + intros Hp.
      rewrite (Qlt_bool_exclusive _ (3 # 2) (5 # 2) ltac:(discriminate) Hp).
      rewrite (Qlt_bool_exclusive _ (3 # 2) 2 ltac:(discriminate) Hp).
      split; [reflexivity|].
      destruct (Qlt_bool (vpip (stats self)) 25); [left | right]; reflexivity.
    + split; [|lia].
      destruct (Qlt_bool (vpip (stats self)) 25),
               (Qlt_bool 2 (af (stats self))); discriminate.
Qed.

Lemma flags_agree_with_type_witness :
  is_tight (player_with 50 18 3) = true
  /\ is_loose (player_with 50 18 3) = false.
Proof.
  split; [reflexivity|].
  apply (proj1 (flags_agree_with_type (player_with 50 18 3))).
  reflexivity.
Defined.

Lemma Player_rebuilt (self : Player) :
  valid_last_updated self = true ->
  Player_from_dict (Player_to_dict self)
  = Some (with_stats self (without_tracking (stats self))).
Proof.
  intros Hvalid. destruct self as [n se st ih po s lu no].
  unfold valid_last_updated in Hvalid. cbn [last_updated] in Hvalid.
  unfold Player_from_dict, Player_to_dict, with_stats.
  cbn [player_dict_get String.eqb Ascii.eqb Bool.eqb get_or name seat stack
       is_hero position stats last_updated notes].
  rewrite PlayerStats_rebuilt. cbn [mbind option_bind].
  destruct lu as [t|].
  - cbn [player_val_truthy]. rewrite isoformat_truthy.
    cbn [as_val as_str mbind option_bind].
    rewrite (fromisoformat_isoformat t Hvalid).
    cbn [mbind option_bind as_int as_float as_bool].
    rewrite as_of_opt_str. reflexivity.
  - cbn [player_val_truthy truthy as_val as_str mbind option_bind as_int
         as_float as_bool].
    rewrite as_of_opt_str. reflexivity.
Qed.

(** X23. Player.from_dict(p.to_dict()) gives back the player with every
    field but the tracking counters and the per-position breakdown of
    the statistics, which come back at their defaults; a player whose
    statistics were set by update_player_stats comes back unchanged. *)
Theorem Player_roundtrip (self : Player) :
  valid_last_updated self = true ->
  Player_from_dict (Player_to_dict self)
  = Some (with_stats self (without_tracking (stats self)))
  /\ forall (hs : list HandRecord) (now : datetime),
       valid_datetime now = true ->
       Player_from_dict (Player_to_dict (update_player_stats self hs now))
       = Some (update_player_stats self hs now).
Proof.
  intros Hvalid. split; [apply Player_rebuilt, Hvalid|].
  intros hs now Hnow. rewrite Player_rebuilt by exact Hnow.
  unfold update_player_stats, update_stats, with_stats.
  cbn [name seat stack is_hero position stats last_updated notes].
  rewrite calculate_stats_unfold. reflexivity.
Qed.

Lemma Player_roundtrip_witness :
  valid_last_updated (player_with 50 22 3) = true
  /\ Player_from_dict
       (Player_to_dict (update_player_stats (player_with 50 22 3)
                          [check_call_hand] noon))
     = Some (update_player_stats (player_with 50 22 3) [check_call_hand]
               noon).
Proof.
  split; [reflexivity|].
  apply (proj2 (Player_roundtrip (player_with 50 22 3) eq_refl)).
  reflexivity.
Defined.

(** X24. A player whose statistics were computed by update_player_stats
    from a history in which fewer than 20 hands list the player is
    typed "Unknown" and carries none of the four flags, whatever the
    actions of those hands are. *)
Theorem few_hands_unknown (player : Player) (hs : list HandRecord)
    (now : datetime) :
  (count_hands (fun h => str_in (name player) (players h)) hs < 20)%nat ->
  let player' := update_player_stats player hs now in
  get_player_type player' = "Unknown"
  /\ is_tight player' = false /\ is_loose player' = false
  /\ is_aggressive player' = false /\ is_passive player' = false.
Proof.
  intros Hfew. cbv zeta.
  assert ((hands (stats (update_player_stats player hs now)) < 20)%Z)
    as Hhands.
  { unfold update_player_stats, update_stats. cbn [stats].
    rewrite calculate_stats_hands. unfold count_hands in Hfew.
    unfold player_hands. lia. }
  unfold is_tight, is_loose, is_aggressive, is_passive, get_player_type.
  assert ((20 <=? hands (stats (update_player_stats player hs now)))%Z
          = false) as -> by (apply Z.leb_gt; exact Hhands).
  apply Z.ltb_lt in Hhands. rewrite Hhands, !andb_false_r.
  repeat split.
Qed.

Lemma few_hands_unknown_witness :
  (count_hands (fun h => str_in (name (player_with 0 0 0)) (players h))
     [check_call_hand] < 20)%nat
  /\ get_player_type
       (update_player_stats (player_with 0 0 0) [check_call_hand] noon)
     = "Unknown".
Proof.
  assert (count_hands
            (fun h => str_in (name (player_with 0 0 0)) (players h))
            [check_call_hand] < 20)%nat as Hfew by (cbn; lia).
  split; [exact Hfew|].
  apply (few_hands_unknown (player_with 0 0 0) [check_call_hand] noon Hfew).
Defined.

Lemma getattr_not_field (s : PlayerStats) (key : string) :
  hasattr key = false -> getattr s key = None.
Proof.
  unfold hasattr, str_in, PlayerStats_fields, getattr. cbn [existsb].
  intros Hno.
  repeat match goal with
         | |- context [String.eqb key ?k] =>
             let E := fresh "E" in
             destruct (String.eqb key k) eqn:E;
             [rewrite ?orb_true_r in Hno; cbn [orb] in Hno; discriminate|]
         end.
  reflexivity.
Qed.

(** X25. get_stat returns, for each key of the statistics dictionary,
    the value to_dict stores under it, and 0.0 for every name the
    statistics object has no attribute of, whether or not it starts
    with underscores; for the name of a method or special attribute it
    returns that attribute. It raises for no name. *)
Theorem get_stat_agrees_with_to_dict (attributes : list string)
    (self : Player) (key : string) :
  (forall v, dict_get (PlayerStats_to_dict (stats self)) key = Some v ->
             get_stat attributes self key = StatValue v)
  /\ (hasattr key = false -> str_in key attributes = false ->
      get_stat attributes self key = StatValue (PyFloat 0))
  /\ (hasattr key = false -> str_in key attributes = true ->
      get_stat attributes self key = OtherAttribute key).
Proof.
  repeat split.
  - unfold PlayerStats_to_dict. intros v.
    cbn [dict_get].
    repeat match goal with
           | |- context [String.eqb ?k key] =>
               let E := fresh "E" in
               destruct (String.eqb k key) eqn:E;
               [apply String.eqb_eq in E; subst key;
                intros Hv; injection Hv as <-; reflexivity|]
           end.
    discriminate.
  - intros Hno Hother. unfold get_stat.
    rewrite (getattr_not_field _ _ Hno), Hother. reflexivity.
  - intros Hno Hother. unfold get_stat.
    rewrite (getattr_not_field _ _ Hno), Hother. reflexivity.
Qed.

Lemma get_stat_agrees_with_to_dict_witness :
  (hasattr "__roi" = false /\ str_in "__roi" sample_attributes = false)
  /\ get_stat sample_attributes (player_with 50 22 3) "__roi"
     = StatValue (PyFloat 0)
  /\ get_stat sample_attributes (player_with 50 22 3) "vpip"
     = StatValue (PyFloat 22)
  /\ get_stat sample_attributes (player_with 50 22 3) "to_dict"
     = OtherAttribute "to_dict".
Proof.
  split; [split; reflexivity|]. split; [|split].
  - apply (proj1 (proj2 (get_stat_agrees_with_to_dict sample_attributes
                           (player_with 50 22 3) "__roi"))); reflexivity.
  - apply (proj1 (get_stat_agrees_with_to_dict sample_attributes
                    (player_with 50 22 3) "vpip")). reflexivity.
  - apply (proj2 (proj2 (get_stat_agrees_with_to_dict sample_attributes
                           (player_with 50 22 3) "to_dict"))); reflexivity.
Defined.

(** ** Sessions *)

(** X26. A session started, played and ended carries the totals of its
    store: with the hands xs played through the history of a session
    (and whatever was started or written after the last end_hand),
    end_session returns the session with its end time, hands_played =
    the number of hands played capped at the store's 1000, profit_bb =
    the sum of the results of the hands held, an unfinished hand
    counting for nothing; the manager is left without a current
    session or history, the ended session appended to its sessions. *)
Theorem end_session_rolls_up (self : SessionManager) (fresh_id : string)
    (now0 now1 : datetime) (notes : string) (xs : list HandPlay)
    (ws : list StoreCall) :
  forallb (fun c => negb (is_end c)) ws = true ->
  let started := fst (start_session self fresh_id now0 notes) in
  let played :=
    on_history started (fun hh => calls_on (play_hands hh xs) ws) in
  let session :=
    Session.mk fresh_id now0 (Some now1)
      (Z.min (Z.of_nat (length xs)) 1000)
      (fold_left Qplus (map play_result (drop (length xs - 1000) xs)) 0%Q)
      notes in
  end_session played now1
  = (mkSessionManager None None (_sessions self ++ [session]), Some session).
Proof.
  intros Hws. cbv zeta.
  unfold start_session, on_history, end_session.
  cbn [fst _current_session _hand_history _sessions fmap option_fmap
       option_map Session.new Session.session_id Session.start_time
       Session.end_time Session.hands_played Session.profit_bb
       Session.notes].
  destruct (totals_after_plays 1000 xs ltac:(lia)) as [Hcount Hprofit].
  cbv zeta in Hcount, Hprofit.
  destruct (calls_without_end ws (play_hands (HandHistory_init 1000) xs) Hws)
    as [Hhs _].
  unfold get_hands_count, get_total_profit_bb in *.
  rewrite Hhs, Hcount, Hprofit. reflexivity.
Qed.

Lemma end_session_rolls_up_witness :
  forallb (fun c => negb (is_end c)) [CallStart "0f0f0f0f" noon None] = true
  /\ (let played :=
        on_history
          (fst (start_session (mkSessionManager None None []) "5e5510a1"
                  noon ""))
          (fun hh =>
             calls_on
               (play_hands hh
                  [mkHandPlay "a1b2c3d4" noon None (fun h => h) 10 None;
                   mkHandPlay "e5f6a7b8" noon None (fun h => h) (-4) None])
               [CallStart "0f0f0f0f" noon None]) in
      snd (end_session played noon)
      = Some (Session.mk "5e5510a1" noon (Some noon) 2 (0 + 10 + -4) "")).
Proof.
  split; [reflexivity|]. cbv zeta.
  rewrite (end_session_rolls_up (mkSessionManager None None []) "5e5510a1"
             noon noon ""
             [mkHandPlay "a1b2c3d4" noon None (fun h => h) 10 None;
              mkHandPlay "e5f6a7b8" noon None (fun h => h) (-4) None]
             [CallStart "0f0f0f0f" noon None] eq_refl).
  reflexivity.
Defined.

(** X28. Without anything to act on the manager does nothing:
    end_session without a current session returns None and leaves the
    manager as it was; record_hand_result without a history, or with a
    history that has no open hand, leaves the manager as it was (no
    hand is filed); with an open hand it is end_hand on the history. *)
Theorem manager_without_session_or_hand (self : SessionManager)
    (now : datetime) (result_bb : Q) (winner : option string) :
  (_current_session self = None -> end_session self now = (self, None))
  /\ (_hand_history self = None ->
      record_hand_result self result_bb winner = self)
  /\ (forall history,
        _hand_history self = Some history ->
        _current_hand history = None ->
        record_hand_result self result_bb winner = self)
  /\ (forall history current,
        _hand_history self = Some history ->
        _current_hand history = Some current ->
        record_hand_result self result_bb winner
        = on_history self (fun hh => end_hand hh result_bb winner)).
Proof.
  unfold end_session, record_hand_result, on_history. repeat split.
  - intros ->. reflexivity.
  - intros ->. reflexivity.
  - intros history -> ->. reflexivity.
  - intros history current -> ->. reflexivity.
Qed.

Lemma manager_without_session_or_hand_witness :
  _current_session (mkSessionManager None None []) = None
  /\ end_session (mkSessionManager None None []) noon
     = (mkSessionManager None None [], None).
Proof.
  split; [reflexivity|].
  apply (proj1 (manager_without_session_or_hand
                  (mkSessionManager None None []) noon 0 None)).
  reflexivity.
Defined.



